(** * Office-PowerPoint-MCP-Server: path resolution, validation and
      request handlers, embedded from the Python sources.

    The development follows the layout of the repository:
    - [PyStr]      the [str] methods the sources call ([strip], [rstrip],
                   [split], [startswith], f-string rendering of integers);
    - [PosixPath]  [os.path] on a POSIX platform ([isabs], [dirname],
                   [basename], [join], [normpath], [abspath]);
    - [Py]         the Python values that cross the tool boundary;
    - [Document]   the object model held in a presentation file;
    - [OS]         the process environment, the file system (with what
                   the operating system refuses), exceptions and the
                   state-and-exception monad in which handlers run;
    - [PptUtils]   the document library's capability surface;
    - [Server]     [ppt_mcp_server.py];
    - [Tools]      [tools/*.py].
    Theorems about them come after all definitions. *)

From Stdlib Require Import ZArith NArith Ascii String List Bool Lia DecimalString.
From stdpp Require Import base option list gmap strings.

Local Open Scope string_scope.
Local Open Scope list_scope.
Local Open Scope Z_scope.
Set Warnings "-register-all".

(** Characters are compared, not taken apart, when goals are simplified. *)
Local Arguments Ascii.eqb : simpl never.
Local Arguments String.eqb : simpl never.

(* ===================================================================== *)
(** ** Python [str] methods                                               *)
(* ===================================================================== *)

Module PyStr.

(** [str.isspace] on the code points below 256: TAB..CR, FS..US, SPACE,
    NEL and NBSP.  [str.strip()] without argument removes exactly these. *)
Definition isspace (c : ascii) : bool :=
  let n := N_of_ascii c in
  (((9 <=? n) && (n <=? 13)) || ((28 <=? n) && (n <=? 32))
   || (n =? 133) || (n =? 160))%N.

Fixpoint lstrip_with (p : ascii -> bool) (s : string) : string :=
  match s with
  | EmptyString => EmptyString
  | String c s' => if p c then lstrip_with p s' else s
  end.

Fixpoint rstrip_with (p : ascii -> bool) (s : string) : string :=
  match s with
  | EmptyString => EmptyString
  | String c s' =>
      match rstrip_with p s' with
      | EmptyString => if p c then EmptyString else String c EmptyString
      | r => String c r
      end
  end.

(** [s.strip()] *)
Definition strip (s : string) : string :=
  lstrip_with isspace (rstrip_with isspace s).

(** [c in chars] for the character-set argument of [rstrip(chars)]. *)
Fixpoint mem_char (c : ascii) (chars : string) : bool :=
  match chars with
  | EmptyString => false
  | String d r => Ascii.eqb c d || mem_char c r
  end.

(** [s.rstrip(chars)] *)
Definition rstrip (chars : string) (s : string) : string :=
  rstrip_with (fun c => mem_char c chars) s.

(** [s.startswith(p)] *)
Fixpoint startswith (p s : string) : bool :=
  match p, s with
  | EmptyString, _ => true
  | String _ _, EmptyString => false
  | String a p', String b s' => Ascii.eqb a b && startswith p' s'
  end.

(** [s.endswith(c)] for a one-character suffix. *)
Fixpoint endswith_char (c : ascii) (s : string) : bool :=
  match s with
  | EmptyString => false
  | String d EmptyString => Ascii.eqb c d
  | String _ s' => endswith_char c s'
  end.

(** [c in s] for a one-character needle. *)
Definition contains_char (c : ascii) (s : string) : bool := mem_char c s.

(** [s.split(sep)] for a one-character separator: never empty, keeps
    empty fields. *)
Fixpoint split (sep : ascii) (s : string) : list string :=
  match s with
  | EmptyString => [EmptyString]
  | String c s' =>
      if Ascii.eqb c sep then EmptyString :: split sep s'
      else match split sep s' with
           | h :: t => String c h :: t
           | [] => [String c EmptyString]
           end
  end.

(** [sep.join(parts)] *)
Definition join (sep : string) (parts : list string) : string :=
  String.concat sep parts.

(** [(s[:i], s[i:])] with [i = s.rfind(sep) + 1]. *)
Fixpoint cut_last (sep : ascii) (s : string) : string * string :=
  match s with
  | EmptyString => (EmptyString, EmptyString)
  | String c s' =>
      match cut_last sep s' with
      | (EmptyString, t) =>
          if Ascii.eqb c sep then (String c EmptyString, t)
          else (EmptyString, String c t)
      | (h, t) => (String c h, t)
      end
  end.

(** [bool(s)]: a string is truthy when it is not empty. *)
Definition truthy (s : string) : bool :=
  match s with EmptyString => false | _ => true end.

(** [needle in s] for strings. *)
Fixpoint contains (needle s : string) : bool :=
  startswith needle s
  || match s with
     | EmptyString => false
     | String _ s' => contains needle s'
     end.

(** [str(n)] for an [int]. *)
Definition of_Z (n : Z) : string := NilZero.string_of_int (Z.to_int n).

(** [s.lower()] on the code points below 256: A..Z and the accented
    capitals 192..222 except the multiplication sign 215. *)
Definition lower_char (c : ascii) : ascii :=
  let n := N_of_ascii c in
  if (((65 <=? n) && (n <=? 90))
      || ((192 <=? n) && (n <=? 222) && negb (n =? 215)))%N
  then ascii_of_N (n + 32) else c.

Fixpoint lower (s : string) : string :=
  match s with
  | EmptyString => EmptyString
  | String c s' => String (lower_char c) (lower s')
  end.

(** Rendering of [repr(s)] for a string without quotes or escapes. *)
Definition repr (s : string) : string := "'" +:+ s +:+ "'".

End PyStr.

(* ===================================================================== *)
(** ** [os.path] on POSIX ([posixpath])                                   *)
(* ===================================================================== *)

Module PosixPath.

Definition sep : ascii := "/"%char.

(** [isabs(s)]: [s.startswith('/')] *)
Definition isabs (s : string) : bool := PyStr.startswith "/" s.

Definition all_sep (s : string) : bool :=
  negb (PyStr.truthy (PyStr.lstrip_with (Ascii.eqb sep) s)).

(** [split(p)]: head and tail around the last slash; trailing slashes
    are removed from the head unless it is the root. *)
Definition split (p : string) : string * string :=
  let '(head, tail) := PyStr.cut_last sep p in
  let head' :=
    if PyStr.truthy head && negb (all_sep head)
    then PyStr.rstrip "/" head else head in
  (head', tail).

Definition dirname (p : string) : string := fst (split p).
Definition basename (p : string) : string := snd (split p).

(** [join(a, b)] *)
Definition join (a b : string) : string :=
  if PyStr.startswith "/" b then b
  else if negb (PyStr.truthy a) || PyStr.endswith_char sep a then a +:+ b
  else a +:+ "/" +:+ b.

(** The loop of [normpath] over the components, [new_comps] kept in
    reverse. *)
Fixpoint norm_comps (initial_slashes : nat) (comps : list string)
         (rev_new : list string) : list string :=
  match comps with
  | [] => rev rev_new
  | comp :: rest =>
      if String.eqb comp "" || String.eqb comp "." then
        norm_comps initial_slashes rest rev_new
      else if negb (String.eqb comp "..")
              || (Nat.eqb initial_slashes 0 && match rev_new with [] => true | _ => false end)
              || match rev_new with last :: _ => String.eqb last ".." | [] => false end
      then norm_comps initial_slashes rest (comp :: rev_new)
      else match rev_new with
           | _ :: popped => norm_comps initial_slashes rest popped
           | [] => norm_comps initial_slashes rest rev_new
           end
  end.

Fixpoint slashes (n : nat) : string :=
  match n with O => "" | S k => String sep (slashes k) end.

(** [normpath(path)] *)
Definition normpath (path : string) : string :=
  if negb (PyStr.truthy path) then "."
  else
    let initial_slashes :=
      if PyStr.startswith "/" path then
        if PyStr.startswith "//" path && negb (PyStr.startswith "///" path)
        then 2%nat else 1%nat
      else 0%nat in
    let new_comps := norm_comps initial_slashes (PyStr.split sep path) [] in
    let p := slashes initial_slashes +:+ PyStr.join "/" new_comps in
    if PyStr.truthy p then p else ".".

(** [abspath(path)] in a process whose working directory is [cwd]. *)
Definition abspath (cwd : string) (path : string) : string :=
  normpath (if isabs path then path else join cwd path).

(** The components the kernel walks when it looks [path] up from [cwd]:
    empty and [.] components are skipped, [..] steps to the parent
    (the root is its own parent). *)
Fixpoint walk (comps : list string) (rev_at : list string) : list string :=
  match comps with
  | [] => rev rev_at
  | comp :: rest =>
      if String.eqb comp "" || String.eqb comp "." then walk rest rev_at
      else if String.eqb comp ".." then walk rest (tail rev_at)
      else walk rest (comp :: rev_at)
  end.

Definition key (cwd : string) (path : string) : list string :=
  walk (PyStr.split sep (if isabs path then path else join cwd path)) [].

End PosixPath.

(* ===================================================================== *)
(** ** Python values                                                      *)
(* ===================================================================== *)

Module Py.

(** A [float] is carried as its 64-bit IEEE-754 pattern; the handlers
    only store floats and test them for truthiness. *)
Record float64 := F64 { bits : N }.

(** [bool(x)] of a float: false exactly for [0.0] and [-0.0]. *)
Definition float_truthy (x : float64) : bool :=
  negb ((bits x =? 0)%N || (bits x =? 2 ^ 63)%N).

(** The values that cross the tool boundary (JSON-like) and the few
    other built-in types a validator can be handed. *)
Inductive value :=
| PNone
| PBool (b : bool)
| PInt (n : Z)
| PFloat (x : float64)
| PStr (s : string)
| PList (items : list value)
| PTuple (items : list value)
| PDict (entries : list (string * value)).

(** A [dict] literal: keys in insertion order. *)
Definition dict := list (string * value).

(** [k in d] *)
Definition has_key (k : string) (d : dict) : bool :=
  existsb (fun kv => String.eqb (fst kv) k) d.

(** [d[k]] *)
Fixpoint get (k : string) (d : dict) : option value :=
  match d with
  | [] => None
  | (k', v) :: rest => if String.eqb k' k then Some v else get k rest
  end.

(** [len(xs)] *)
Definition len {A} (xs : list A) : Z := Z.of_nat (length xs).

(** The position that [xs[i]] denotes in a Python sequence: negative
    indices count from the end; [None] stands for [IndexError]. *)
Definition index_pos {A} (xs : list A) (i : Z) : option nat :=
  if 0 <=? i then (if i <? len xs then Some (Z.to_nat i) else None)
  else if - len xs <=? i then Some (Z.to_nat (len xs + i))
  else None.

(** [f"{x}"] for an [Optional[int]]. *)
Definition fmt_opt_int (x : option Z) : string :=
  match x with Some n => PyStr.of_Z n | None => "None" end.

(** [f"{x}"] for an [Optional[str]]. *)
Definition fmt_opt_str (x : option string) : string :=
  match x with Some s => s | None => "None" end.

Definition of_opt_str (x : option string) : value :=
  match x with Some s => PStr s | None => PNone end.

(** [bool(x)] for an [Optional[str]]. *)
Definition opt_str_truthy (x : option string) : bool :=
  match x with Some s => PyStr.truthy s | None => false end.

End Py.

(* ===================================================================== *)
(** ** The document object model held in a presentation file              *)
(* ===================================================================== *)

Module Document.

Record Run := { run_text : string; hyperlink_address : option string }.
Record Paragraph := { runs : list Run }.
Record TextFrame := { paragraphs : list Paragraph }.

Record Chart :=
  { chart_categories : list string;
    chart_series : list (Py.value * Py.value) }.

(** Modelled from the library: [pptx.enum.shapes.MSO_CONNECTOR] is not
    among the sources.  Its members are [STRAIGHT], [ELBOW], [CURVE] and
    [MIXED]; it has no member [CURVED]. *)
Inductive MSO_CONNECTOR := STRAIGHT | ELBOW | CURVE | MIXED.

Record Connector :=
  { connector_kind : MSO_CONNECTOR;
    begin_point : Py.float64 * Py.float64;
    end_point : Py.float64 * Py.float64;
    line_width : option Py.float64;
    line_rgb : option (Z * Z * Z) }.

(** [text_frame] is [None] when the shape has no such attribute or it
    is falsy; [chart] is [None] when [has_chart] is absent or false. *)
Record Shape :=
  { text_frame : option TextFrame;
    chart : option Chart;
    connector : option Connector }.

(** The transition element of a slide is part of the file but has no
    accessor in the library; it is carried verbatim. *)
Record Slide := { shapes : list Shape; transition : option string }.

Record CoreProperties :=
  { title : string; subject : string; author : string;
    keywords : string; comments : string }.

Record Presentation :=
  { slides : list Slide; core_properties : CoreProperties }.

End Document.

(* ===================================================================== *)
(** ** Process environment, file system, exceptions                       *)
(* ===================================================================== *)

Module OS.

Inductive exn_class :=
| FileExistsError | NotADirectoryError | FileNotFoundError
| IsADirectoryError | PermissionError | OSError | PackageNotFoundError
| NameError | AttributeError | IndexError | TypeError | ValueError.

(** An exception: its class and [str(e)]. *)
Record exn := Exn { exn_cls : exn_class; exn_str : string }.

Inductive result (A : Type) :=
| Ok (a : A)
| Raise (e : exn).
Arguments Ok {A} a.
Arguments Raise {A} e.

(** What a regular file holds: a well-formed presentation package or
    anything else. *)
Inductive content :=
| Pptx (pres : Document.Presentation)
| Other (data : string).

Inductive node :=
| Dir
| File (c : content).

(** The file system maps the components of an absolute path to the
    node found there; the root itself is always a directory. *)
Definition node_at (fs : gmap (list string) node) (k : list string) : option node :=
  match k with
  | [] => Some Dir
  | _ => fs !! k
  end.

(** The observable world of a handler: the disk and what was printed. *)
Record world :=
  World { fs : gmap (list string) node; stdout : list string }.

(** What the process was started with and reads but never writes:
    working directory, environment variables, [platform.system()],
    the password database behind [~], and the module global
    [_presentations_root_cli] of [ppt_mcp_server.py].
    [os_refuses] is what the operating system denies the process for
    reasons that do not show in the tree of directories and files: for
    a directory that it will not create or let the process pass (a
    component of more than 255 bytes, an embedded NUL, a missing
    permission, a read-only file system) it gives the exception that
    [os.mkdir] raises there. *)
Record process :=
  { cwd : string;
    environ : gmap string string;
    platform_system : string;
    pw_dir_uid : option string;
    pw_dir_name : string -> option string;
    os_refuses : list string -> option exn;
    _presentations_root_cli : option string }.

(** Computations that read and write the world and may raise. *)
Definition M (A : Type) : Type := world -> result A * world.

Definition ret {A} (a : A) : M A := fun w => (Ok a, w).
Definition raise {A} (e : exn) : M A := fun w => (Raise e, w).
Definition bind {A B} (m : M A) (k : A -> M B) : M B :=
  fun w => match m w with
           | (Ok a, w') => k a w'
           | (Raise e, w') => (Raise e, w')
           end.

(** [try: m  except Exception as e: h e] *)
Definition try_except {A} (m : M A) (h : exn -> M A) : M A :=
  fun w => match m w with
           | (Ok a, w') => (Ok a, w')
           | (Raise e, w') => h e w'
           end.

Definition get_fs : M (gmap (list string) node) := fun w => (Ok (fs w), w).
Definition put_fs (f : gmap (list string) node) : M unit :=
  fun w => (Ok tt, World f (stdout w)).

(** [print(line)] *)
Definition print (line : string) : M unit :=
  fun w => (Ok tt, World (fs w) (stdout w ++ [line])).

(** [os.path.exists(path)] and [os.path.isdir(path)].  The path is
    looked up lexically, at [PosixPath.key].  On a disk where every node
    lies in a directory this is the kernel's answer for the absolute,
    normalised paths that the handlers test after resolution, and
    [isdir] is the kernel's answer for every non-empty path without
    [..].  The kernel looks every component up in the directory reached:
    it finds nothing behind a missing directory or a regular file, and
    nothing at the empty path. *)
Definition exists_ (p : process) (path : string) : M bool :=
  fun w => (Ok (bool_decide (is_Some (node_at (fs w) (PosixPath.key (cwd p) path)))), w).

Definition isdir (p : process) (path : string) : M bool :=
  fun w => (Ok (match node_at (fs w) (PosixPath.key (cwd p) path) with
                | Some Dir => true
                | _ => false
                end), w).

Definition errno_msg (what : string) (path : string) : string :=
  what +:+ ": " +:+ PyStr.repr path.

(** The descent of [os.makedirs(name, exist_ok=True)]: [done] is the
    directory reached so far, [todo] the components still to enter.
    Where the operating system refuses the next component, its
    exception is raised.  Otherwise a missing component is created; an
    existing directory is entered; a regular file in the way is
    [FileExistsError] when it is the last component, and
    [NotADirectoryError] when more follow, raised by the [mkdir] of the
    component below it.  Directories created before a failure stay. *)
Fixpoint mkdir_p (refuses : list string -> option exn) (name : string)
         (done todo : list string) (f : gmap (list string) node)
  : result unit * gmap (list string) node :=
  match todo with
  | [] => (Ok tt, f)
  | c :: rest =>
      let here := done ++ [c] in
      match refuses here with
      | Some e => (Raise e, f)
      | None =>
          match f !! here with
          | None => mkdir_p refuses name here rest (<[here := Dir]> f)
          | Some Dir => mkdir_p refuses name here rest f
          | Some (File _) =>
              match rest with
              | [] => (Raise (Exn FileExistsError
                                  (errno_msg "[Errno 17] File exists" name)), f)
              | next :: _ =>
                  (Raise (Exn NotADirectoryError
                              (errno_msg "[Errno 20] Not a directory"
                                         ("/" +:+ PyStr.join "/" (here ++ [next])))),
                   f)
              end
          end
      end
  end.

(** [os.makedirs(name, exist_ok=True)] *)
Definition makedirs (p : process) (name : string) : M unit :=
  fun w =>
    let '(r, f') :=
      mkdir_p (os_refuses p) name [] (PosixPath.key (cwd p) name) (fs w) in
    (r, World f' (stdout w)).

(** Split [s] before its first [sep]: [(s[:i], s[i:])] with
    [i = s.find(sep)], or [(s, "")] when there is none. *)
Fixpoint break_at (sep : ascii) (s : string) : string * string :=
  match s with
  | EmptyString => (EmptyString, EmptyString)
  | String c s' =>
      if Ascii.eqb c sep then (EmptyString, s)
      else let '(a, b) := break_at sep s' in (String c a, b)
  end.

(** [os.path.expanduser(path)]: [~] is the value of [HOME], or the
    password-database home of the current user when [HOME] is unset;
    [~name] is the home of [name]; an unknown user leaves the path as
    it is. *)
Definition expanduser (p : process) (path : string) : string :=
  match path with
  | String "~"%char rest =>
      let '(name, suffix) := break_at PosixPath.sep rest in
      let userhome :=
        if PyStr.truthy name then pw_dir_name p name
        else match environ p !! "HOME" with
             | Some h => Some h
             | None => pw_dir_uid p
             end in
      match userhome with
      | None => path
      | Some h =>
          let r := PyStr.rstrip "/" h +:+ suffix in
          if PyStr.truthy r then r else "/"
      end
  | _ => path
  end.

End OS.

Global Instance M_ret : MRet OS.M := @OS.ret.
Global Instance M_bind : MBind OS.M := fun A B k m => OS.bind m k.

(** [x <- m ;; k] runs [m] first, so that [k] is read with the type of [x]
    known; [m ;; k] is the library's sequencing. *)
Declare Scope os_scope.
Notation "x <- m ;; k" := (OS.bind m (fun x => k))
  (at level 100, m at next level, k at level 200, right associativity) : os_scope.
Notation "' pat <- m ;; k" := (OS.bind m (fun x => match x with pat => k end))
  (at level 20, pat pattern, m at level 99, k at level 200,
   only parsing) : os_scope.
Local Open Scope os_scope.

(* ===================================================================== *)
(** ** The document library ([utils], imported as [ppt_utils])            *)
(* ===================================================================== *)

Module PptUtils.
Import OS Document.

(** Modelled from the spec: [ppt_utils.open_presentation] is not among
    the sources; section 6 gives the surface [open(path) -> Document].
    Opening succeeds exactly on a regular file that holds a
    presentation package and raises otherwise. *)
Definition open_presentation (p : process) (path : string) : M Presentation :=
  fun w =>
    match node_at (fs w) (PosixPath.key (cwd p) path) with
    | Some (File (Pptx pres)) => (Ok pres, w)
    | _ => (Raise (Exn PackageNotFoundError
                       ("Package not found at " +:+ PyStr.repr path)), w)
    end.

(** Modelled from the spec: [ppt_utils.save_presentation] is not among
    the sources; section 6 gives [save(Document, path) -> path].  The
    document is written to [path] when its parent is a directory and
    [path] is not one. *)
Definition save_presentation (p : process) (pres : Presentation)
           (path : string) : M string :=
  fun w =>
    let k := PosixPath.key (cwd p) path in
    match node_at (fs w) (removelast k), node_at (fs w) k with
    | _, Some Dir =>
        (Raise (Exn IsADirectoryError
                    (errno_msg "[Errno 21] Is a directory" path)), w)
    | Some Dir, _ =>
        (Ok path, World (<[k := File (Pptx pres)]> (fs w)) (stdout w))
    | Some (File _), _ =>
        (Raise (Exn NotADirectoryError
                    (errno_msg "[Errno 20] Not a directory" path)), w)
    | None, _ =>
        (Raise (Exn FileNotFoundError
                    (errno_msg "[Errno 2] No such file or directory" path)), w)
    end.

(** Modelled from the spec: [ppt_utils.create_presentation] is not among
    the sources; section 8 reports [slide_count: 1] for a new deck, so
    the default document has one empty slide. *)
Definition create_presentation : Presentation :=
  {| slides := [ {| shapes := []; transition := None |} ];
     core_properties :=
       {| title := ""; subject := ""; author := "";
          keywords := ""; comments := "" |} |}.

(** Modelled from the spec: [ppt_utils.set_core_properties] is not among
    the sources; each property that is given replaces the stored one. *)
Definition set_core_properties (pres : Presentation)
           (title' subject' author' keywords' comments' : option string)
  : Presentation :=
  let c := core_properties pres in
  {| slides := slides pres;
     core_properties :=
       {| title := default (title c) title';
          subject := default (subject c) subject';
          author := default (author c) author';
          keywords := default (keywords c) keywords';
          comments := default (comments c) comments' |} |}.

End PptUtils.

(* ===================================================================== *)
(** ** [ppt_mcp_server.py]                                                *)
(* ===================================================================== *)

Module Server.
Import OS.

(** [get_presentations_root()] *)
Definition get_presentations_root (p : process) : string :=
  if Py.opt_str_truthy (_presentations_root_cli p)
  then default "" (_presentations_root_cli p)
  else default "./presentations" (environ p !! "PPT_PRESENTATIONS_ROOT").

(** [looks_like_file] of [resolve_presentation_path] *)
Definition looks_like_file (base_name : string) : bool :=
  PyStr.contains_char "."%char base_name
  && negb (PyStr.startswith "." base_name).

(** [dir_to_create] of [resolve_presentation_path] *)
Definition dir_to_create (abs_path : string) : string :=
  let base_name := PosixPath.basename abs_path in
  if looks_like_file base_name then PosixPath.dirname abs_path else abs_path.

(** The [try] block of [resolve_presentation_path]. *)
Definition resolve_body (p : process) (name_or_path : string) : M string :=
  let raw := PyStr.strip name_or_path in
  if PosixPath.isabs raw || PyStr.truthy (PosixPath.dirname raw) then
    let abs_path := PosixPath.abspath (cwd p) raw in
    (if PyStr.truthy (dir_to_create abs_path)
     then makedirs p (dir_to_create abs_path) else mret tt);;
    mret abs_path
  else
    let root := PosixPath.abspath (cwd p) (get_presentations_root p) in
    makedirs p root;;
    mret (PosixPath.join root raw).

(** [resolve_presentation_path(name_or_path)]: an exception is printed
    and raised again. *)
Definition resolve_presentation_path (p : process) (name_or_path : string)
  : M string :=
  try_except (resolve_body p name_or_path)
    (fun e =>
       print ("Error resolving presentation path: " +:+ exn_str e);;
       raise e).

Definition fallback_dirs : list string :=
  ["."; "./templates"; "./assets"; "./resources"].

(** The loop that fills [valid_env_dirs]. *)
Fixpoint valid_env_dirs (p : process) (env_dirs : list string)
  : M (list string) :=
  match env_dirs with
  | [] => mret []
  | dir_path :: rest =>
      let expanded_path := expanduser p dir_path in
      e <- exists_ p expanded_path;;
      d <- (if e then isdir p expanded_path else mret false);;
      more <- valid_env_dirs p rest;;
      mret (if d then expanded_path :: more else more)
  end.

(** [[path.strip() for path in s.split(separator) if path.strip()]] *)
Definition env_dirs (separator : ascii) (template_env_path : string)
  : list string :=
  List.map PyStr.strip
    (List.filter (fun path => PyStr.truthy (PyStr.strip path))
                 (PyStr.split separator template_env_path)).

(** [get_template_search_directories()].  The separator is chosen as
    the source chooses it; the path functions under it are those of a
    POSIX platform, so that statements about this function are made for
    [platform.system()] other than [Windows], where [os.path] is another
    module. *)
Definition get_template_search_directories (p : process) : M (list string) :=
  let template_env_path := environ p !! "PPT_TEMPLATE_PATH" in
  match template_env_path with
  | Some v =>
      if PyStr.truthy v then
        let separator :=
          if String.eqb (platform_system p) "Windows"
          then ";"%char else ":"%char in
        valid <- valid_env_dirs p (env_dirs separator v);;
        match valid with
        | _ :: _ => mret (valid ++ fallback_dirs)
        | [] =>
            print ("Warning: PPT_TEMPLATE_PATH directories not found: " +:+ v);;
            mret fallback_dirs
        end
      else mret fallback_dirs
  | None => mret fallback_dirs
  end.

(** A constraint is a predicate with its message.  Calling the
    predicate either raises or returns an object, of which
    [validate_parameters] only takes the truth value. *)
Definition constraint : Type := (Py.value -> result bool) * string.

(** The inner loop of [validate_parameters]: [Some r] is [return r],
    [None] is the end of the loop. *)
Fixpoint check_constraints (param_name : string) (value : Py.value)
         (constraints : list constraint)
  : result (option (bool * option string)) :=
  match constraints with
  | [] => Ok None
  | (constraint_func, error_msg) :: rest =>
      match constraint_func value with
      | Raise e => Raise e
      | Ok true => check_constraints param_name value rest
      | Ok false =>
          Ok (Some (false,
                    Some ("Parameter '" +:+ param_name +:+ "': " +:+ error_msg)))
      end
  end.

(** [validate_parameters(params)]; [params.items()] in insertion order. *)
Fixpoint validate_parameters
         (params : list (string * (Py.value * list constraint)))
  : result (bool * option string) :=
  match params with
  | [] => Ok (true, None)
  | (param_name, (value, constraints)) :: rest =>
      match check_constraints param_name value constraints with
      | Raise e => Raise e
      | Ok (Some r) => Ok r
      | Ok None => validate_parameters rest
      end
  end.

Definition type_name (v : Py.value) : string :=
  match v with
  | Py.PNone => "NoneType" | Py.PBool _ => "bool" | Py.PInt _ => "int"
  | Py.PFloat _ => "float" | Py.PStr _ => "str" | Py.PList _ => "list"
  | Py.PTuple _ => "tuple" | Py.PDict _ => "dict"
  end.

Definition not_supported (op : string) (v : Py.value) : exn :=
  Exn TypeError ("'" +:+ op +:+ "' not supported between instances of '"
                 +:+ type_name v +:+ "' and 'int'").

(** The largest finite-or-infinite positive pattern: [+inf]. *)
Definition pos_inf_bits : N := 0x7FF0000000000000%N.

(** [is_positive(value)]: [value > 0] *)
Definition is_positive (value : Py.value) : result bool :=
  match value with
  | Py.PInt n => Ok (0 <? n)
  | Py.PBool b => Ok b
  | Py.PFloat x => Ok ((0 <? Py.bits x)%N && (Py.bits x <=? pos_inf_bits)%N)
  | _ => Raise (not_supported ">" value)
  end.

(** [is_non_negative(value)]: [value >= 0] *)
Definition is_non_negative (value : Py.value) : result bool :=
  match value with
  | Py.PInt n => Ok (0 <=? n)
  | Py.PBool b => Ok true
  | Py.PFloat x =>
      Ok ((Py.bits x <=? pos_inf_bits)%N || (Py.bits x =? 2 ^ 63)%N)
  | _ => Raise (not_supported ">=" value)
  end.

(** [isinstance(c, int)], with the integer [c] then denotes: [bool] is
    a subclass of [int]. *)
Definition as_int (c : Py.value) : option Z :=
  match c with
  | Py.PInt n => Some n
  | Py.PBool b => Some (if b then 1 else 0)
  | _ => None
  end.

(** [is_valid_rgb(color_list)] *)
Definition is_valid_rgb (color_list : Py.value) : bool :=
  match color_list with
  | Py.PList items =>
      if negb (Nat.eqb (length items) 3) then false
      else forallb (fun c => match as_int c with
                             | Some n => (0 <=? n) && (n <=? 255)
                             | None => false
                             end) items
  | _ => false
  end.

End Server.

(* ===================================================================== *)
(** ** [tools/*.py]                                                        *)
(* ===================================================================== *)

Module Tools.
Import OS Document.

(** *** [tools/response_utils.py] *)

(** [sanitize_presentation_name(presentation_file_name)] *)
Definition sanitize_presentation_name (presentation_file_name : option string)
  : option string :=
  match presentation_file_name with
  | None => None
  | Some name =>
      if negb (PyStr.truthy name) then Some name
      else
        let stripped := PyStr.strip name in
        if negb (PyStr.truthy stripped) then Some stripped
        else
          let stripped := PyStr.rstrip "\/" stripped in
          if negb (PyStr.truthy stripped) then Some stripped
          else
            let basename := PosixPath.basename stripped in
            Some (if PyStr.truthy basename then basename else stripped)
  end.

(** *** What the handlers share *)

(** [{"error": msg}] *)
Definition error_response (msg : string) : Py.dict := [("error", Py.PStr msg)].

(** [0 <= i < len(xs)] *)
Definition in_range {A} (i : Z) (xs : list A) : bool :=
  (0 <=? i) && (i <? Py.len xs).

(** [xs[i]] as a statement that may raise [IndexError]; the position is
    returned with the element so that an assignment through it can be
    replayed on the document.  [kind] is what the text of the exception
    names: [pres.slides] and [slide.shapes] are the library's
    collections (slide, shape), [text_frame.paragraphs] and
    [paragraph.runs] are tuples. *)
Definition subscript {A} (kind : string) (xs : list A) (i : Z) : M (nat * A) :=
  let out_of_range := Exn IndexError (kind +:+ " index out of range") in
  match Py.index_pos xs i with
  | Some n =>
      match xs !! n with
      | Some x => mret (n, x)
      | None => raise out_of_range
      end
  | None => raise out_of_range
  end.

(** Assignment below [pres.slides[si].shapes[shi]]. *)
Definition alter_slide (f : Slide -> Slide) (si : nat) (pres : Presentation)
  : Presentation :=
  {| slides := alter f si (slides pres);
     core_properties := core_properties pres |}.

Definition alter_shape (f : Shape -> Shape) (si shi : nat)
           (pres : Presentation) : Presentation :=
  alter_slide (fun sl => {| shapes := alter f shi (shapes sl);
                            transition := transition sl |}) si pres.

Definition alter_paragraph (f : Paragraph -> Paragraph) (pi : nat)
           (sh : Shape) : Shape :=
  {| text_frame :=
       match text_frame sh with
       | Some tf => Some {| paragraphs := alter f pi (paragraphs tf) |}
       | None => None
       end;
     chart := chart sh;
     connector := connector sh |}.

(** *** [tools/hyperlink_tools.py] *)

(** The [list] operation's triple loop over shapes, paragraphs, runs. *)
Definition list_hyperlinks (slide : Slide) : list Py.value :=
  concat (imap (fun shape_idx shape =>
    match text_frame shape with
    | None => []
    | Some tf =>
        concat (imap (fun para_idx paragraph =>
          concat (imap (fun run_idx run =>
            if Py.opt_str_truthy (hyperlink_address run) then
              [Py.PDict
                 [("shape_index", Py.PInt (Z.of_nat shape_idx));
                  ("paragraph_index", Py.PInt (Z.of_nat para_idx));
                  ("run_index", Py.PInt (Z.of_nat run_idx));
                  ("text", Py.PStr (run_text run));
                  ("url", Py.of_opt_str (hyperlink_address run))]]
            else []) (runs paragraph))) (paragraphs tf))
    end) (shapes slide)).

(** [run = paragraph.add_run(); run.text = text;
     run.hyperlink.address = url] *)
Definition add_run (text url : string) (par : Paragraph) : Paragraph :=
  {| runs := runs par ++ [{| run_text := text; hyperlink_address := Some url |}] |}.

(** [paragraph.runs[ri].hyperlink.address = addr] *)
Definition set_address (ri : nat) (addr : option string) (par : Paragraph)
  : Paragraph :=
  {| runs := alter (fun r => {| run_text := run_text r;
                                hyperlink_address := addr |}) ri (runs par) |}.

(** The [try] block of [manage_hyperlinks]. *)
Definition manage_hyperlinks_body (p : process) (operation : string)
           (slide_index : Z) (shape_index : option Z)
           (text url : option string) (run_index : Z)
           (presentation_file_name : option string) : M Py.dict :=
  if negb (Py.opt_str_truthy presentation_file_name) then
    mret (error_response "presentation_file_name is required")
  else
    path <- Server.resolve_presentation_path p (default "" presentation_file_name);;
    found <- exists_ p path;;
    if negb found then mret (error_response ("File not found: " +:+ path))
    else
      pres <- PptUtils.open_presentation p path;;
      if negb (in_range slide_index (slides pres)) then
        mret (error_response
                ("Slide index " +:+ PyStr.of_Z slide_index +:+ " out of range"))
      else
        '(si, slide) <- subscript "slide" (slides pres) slide_index;;
        if String.eqb operation "list" then
          let hyperlinks := list_hyperlinks slide in
          mret [("message",
                 Py.PStr ("Found " +:+ PyStr.of_Z (Py.len hyperlinks)
                          +:+ " hyperlinks on slide " +:+ PyStr.of_Z slide_index));
                ("hyperlinks", Py.PList hyperlinks);
                ("file_path", Py.PStr path)]
        else
          let shape_ok :=
            match shape_index with
            | None => false
            | Some i => in_range i (shapes slide)
            end in
          if negb shape_ok then
            mret (error_response
                    ("Shape index " +:+ Py.fmt_opt_int shape_index
                     +:+ " out of range"))
          else
            '(shi, shape) <- subscript "shape" (shapes slide) (default 0 shape_index);;
            match text_frame shape with
            | None => mret (error_response "Shape does not contain text")
            | Some tf =>
                if String.eqb operation "add" then
                  if negb (Py.opt_str_truthy text) || negb (Py.opt_str_truthy url) then
                    mret (error_response
                            "Both 'text' and 'url' are required for adding hyperlinks")
                  else
                    let text := default "" text in
                    let url := default "" url in
                    '(pi, _) <- subscript "tuple" (paragraphs tf) 0;;
                    let pres' :=
                      alter_shape (alter_paragraph (add_run text url) pi) si shi pres in
                    _ <- PptUtils.save_presentation p pres' path;;
                    mret [("message",
                           Py.PStr ("Added hyperlink '" +:+ text +:+ "' -> '" +:+ url
                                    +:+ "' to shape " +:+ Py.fmt_opt_int shape_index));
                          ("text", Py.PStr text);
                          ("url", Py.PStr url);
                          ("file_path", Py.PStr path)]
                else if String.eqb operation "update" then
                  if negb (Py.opt_str_truthy url) then
                    mret (error_response "URL is required for updating hyperlinks")
                  else
                    let url := default "" url in
                    '(pi, par) <- subscript "tuple" (paragraphs tf) 0;;
                    if run_index <? Py.len (runs par) then
                      '(ri, run) <- subscript "tuple" (runs par) run_index;;
                      let old_url := hyperlink_address run in
                      let pres' :=
                        alter_shape (alter_paragraph (set_address ri (Some url)) pi)
                                    si shi pres in
                      _ <- PptUtils.save_presentation p pres' path;;
                      mret [("message",
                             Py.PStr ("Updated hyperlink from '" +:+ Py.fmt_opt_str old_url
                                      +:+ "' to '" +:+ url +:+ "'"));
                            ("old_url", Py.of_opt_str old_url);
                            ("new_url", Py.PStr url);
                            ("text", Py.PStr (run_text run));
                            ("file_path", Py.PStr path)]
                    else
                      mret (error_response
                              ("Run index " +:+ PyStr.of_Z run_index +:+ " out of range"))
                else if String.eqb operation "remove" then
                  '(pi, par) <- subscript "tuple" (paragraphs tf) 0;;
                  if run_index <? Py.len (runs par) then
                    '(ri, run) <- subscript "tuple" (runs par) run_index;;
                    let old_url := hyperlink_address run in
                    let pres' :=
                      alter_shape (alter_paragraph (set_address ri None) pi)
                                  si shi pres in
                    _ <- PptUtils.save_presentation p pres' path;;
                    mret [("message",
                           Py.PStr ("Removed hyperlink '" +:+ Py.fmt_opt_str old_url
                                    +:+ "' from text '" +:+ run_text run +:+ "'"));
                          ("removed_url", Py.of_opt_str old_url);
                          ("text", Py.PStr (run_text run));
                          ("file_path", Py.PStr path)]
                  else
                    mret (error_response
                            ("Run index " +:+ PyStr.of_Z run_index +:+ " out of range"))
                else
                  mret (error_response
                          ("Unsupported operation: " +:+ operation
                           +:+ ". Use 'add', 'remove', 'list', or 'update'"))
            end.

(** [manage_hyperlinks(...)] *)
Definition manage_hyperlinks (p : process) (operation : string)
           (slide_index : Z) (shape_index : option Z)
           (text url : option string) (run_index : Z)
           (presentation_file_name : option string) : M Py.dict :=
  try_except
    (manage_hyperlinks_body p operation slide_index shape_index text url
                            run_index presentation_file_name)
    (fun e => mret (error_response ("Failed to manage hyperlinks: " +:+ exn_str e))).

(** *** [tools/chart_tools.py] *)

(** Modelled from the library: [chart_data.add_series(name, values)]
    iterates over [values], so that a value that cannot be iterated
    raises [TypeError]. *)
Definition add_series (name values : Py.value) : result (Py.value * Py.value) :=
  match values with
  | Py.PNone | Py.PBool _ | Py.PInt _ | Py.PFloat _ =>
      Raise (Exn TypeError ("'" +:+ Server.type_name values
                            +:+ "' object is not iterable"))
  | _ => Ok (name, values)
  end.

(** The loop over [series_data]: [Ok None] is the early [return] of the
    error response, [Ok (Some acc)] the series added to [chart_data],
    [Raise e] an exception of [add_series]. *)
Fixpoint add_all_series (series_data : list Py.dict)
         (acc : list (Py.value * Py.value))
  : result (option (list (Py.value * Py.value))) :=
  match series_data with
  | [] => Ok (Some acc)
  | series :: rest =>
      if negb (Py.has_key "name" series) || negb (Py.has_key "values" series)
      then Ok None
      else
        match Py.get "name" series, Py.get "values" series with
        | Some n, Some v =>
            match add_series n v with
            | Ok added => add_all_series rest (acc ++ [added])
            | Raise e => Raise e
            end
        | _, _ => Ok None
        end
  end.

(** Modelled from the library, for chart data that it accepts:
    [chart.replace_data(chart_data)] on the shape leaves the chart with
    the categories and the series of [chart_data]. *)
Definition replace_data (categories : list string)
           (series : list (Py.value * Py.value)) (sh : Shape) : Shape :=
  {| text_frame := text_frame sh;
     chart := Some {| chart_categories := categories; chart_series := series |};
     connector := connector sh |}.

(** The [try] block of [update_chart_data]. *)
Definition update_chart_data_body (p : process) (slide_index shape_index : Z)
           (categories : list string) (series_data : list Py.dict)
           (presentation_file_name : option string) : M Py.dict :=
  if negb (Py.opt_str_truthy presentation_file_name) then
    mret (error_response "presentation_file_name is required")
  else
    path <- Server.resolve_presentation_path p (default "" presentation_file_name);;
    found <- exists_ p path;;
    if negb found then
      mret (error_response
              ("File not found: "
               +:+ Py.fmt_opt_str (sanitize_presentation_name presentation_file_name)))
    else
      pres <- PptUtils.open_presentation p path;;
      if negb (in_range slide_index (slides pres)) then
        mret (error_response
                ("Slide index " +:+ PyStr.of_Z slide_index +:+ " out of range"))
      else
        '(si, slide) <- subscript "slide" (slides pres) slide_index;;
        if negb (in_range shape_index (shapes slide)) then
          mret (error_response
                  ("Shape index " +:+ PyStr.of_Z shape_index +:+ " out of range"))
        else
          '(shi, shape) <- subscript "shape" (shapes slide) shape_index;;
          match chart shape with
          | None => mret (error_response "Shape is not a chart")
          | Some _ =>
              match add_all_series series_data [] with
              | Raise e => raise e
              | Ok None =>
                  mret (error_response
                          "Each series must have 'name' and 'values' keys")
              | Ok (Some series) =>
                  let pres' :=
                    alter_shape (replace_data categories series) si shi pres in
                  _ <- PptUtils.save_presentation p pres' path;;
                  mret [("message",
                         Py.PStr ("Updated chart data on slide "
                                  +:+ PyStr.of_Z slide_index +:+ ", shape "
                                  +:+ PyStr.of_Z shape_index));
                        ("categories", Py.PList (List.map Py.PStr categories));
                        ("series_count", Py.PInt (Py.len series_data));
                        ("series_names", Py.PList (List.map fst series))]
              end
          end.

(** [update_chart_data(...)] *)
Definition update_chart_data (p : process) (slide_index shape_index : Z)
           (categories : list string) (series_data : list Py.dict)
           (presentation_file_name : option string) : M Py.dict :=
  try_except
    (update_chart_data_body p slide_index shape_index categories series_data
                            presentation_file_name)
    (fun e => mret (error_response ("Failed to update chart data: " +:+ exn_str e))).

(** *** [tools/transition_tools.py] *)

(** The [try] block of [manage_slide_transitions]. *)
Definition manage_slide_transitions_body (p : process) (slide_index : Z)
           (operation : string) (transition_type : option string)
           (duration : Py.float64) (presentation_file_name : option string)
  : M Py.dict :=
  if negb (Py.opt_str_truthy presentation_file_name) then
    mret (error_response "presentation_file_name is required")
  else
    path <- Server.resolve_presentation_path p (default "" presentation_file_name);;
    found <- exists_ p path;;
    if negb found then
      mret (error_response
              ("File not found: " +:+ Py.fmt_opt_str presentation_file_name))
    else
      pres <- PptUtils.open_presentation p path;;
      if negb (in_range slide_index (slides pres)) then
        mret (error_response
                ("Slide index " +:+ PyStr.of_Z slide_index +:+ " out of range"))
      else
        '(si, slide) <- subscript "slide" (slides pres) slide_index;;
        if String.eqb operation "get" then
          mret [("message",
                 Py.PStr ("Transition info for slide " +:+ PyStr.of_Z slide_index));
                ("slide_index", Py.PInt slide_index);
                ("note",
                 Py.PStr "Transition reading has limited support in python-pptx")]
        else if String.eqb operation "set" then
          let result :=
            [("message",
              Py.PStr ("Transition setting requested for slide "
                       +:+ PyStr.of_Z slide_index));
             ("slide_index", Py.PInt slide_index);
             ("transition_type", Py.of_opt_str transition_type);
             ("duration", Py.PFloat duration);
             ("note",
              Py.PStr "Transition setting has limited support in python-pptx - this is a placeholder for future enhancement")] in
          _ <- PptUtils.save_presentation p pres path;;
          mret result
        else if String.eqb operation "remove" then
          let result :=
            [("message",
              Py.PStr ("Transition removal requested for slide "
                       +:+ PyStr.of_Z slide_index));
             ("slide_index", Py.PInt slide_index);
             ("note",
              Py.PStr "Transition removal has limited support in python-pptx - this is a placeholder for future enhancement")] in
          _ <- PptUtils.save_presentation p pres path;;
          mret result
        else
          mret (error_response
                  ("Unsupported operation: " +:+ operation
                   +:+ ". Use 'set', 'remove', or 'get'")).

(** [manage_slide_transitions(...)] *)
Definition manage_slide_transitions (p : process) (slide_index : Z)
           (operation : string) (transition_type : option string)
           (duration : Py.float64) (presentation_file_name : option string)
  : M Py.dict :=
  try_except
    (manage_slide_transitions_body p slide_index operation transition_type
                                   duration presentation_file_name)
    (fun e => mret (error_response
                      ("Failed to manage slide transitions: " +:+ exn_str e))).

(** *** [tools/connector_tools.py] *)

(** The names bound at module level of [connector_tools.py] by its
    imports and its one definition. *)
Definition connector_tools_globals : list string :=
  ["Dict"; "List"; "Optional"; "Any"; "Inches"; "Pt"; "MSO_CONNECTOR";
   "RGBColor"; "os"; "FastMCP"; "ppt_utils"; "register_connector_tools"].

(** The names bound in [register_connector_tools] and in [add_connector]
    (parameters and assigned locals). *)
Definition add_connector_locals : list string :=
  ["app"; "resolve_presentation_path"; "add_connector";
   "slide_index"; "connector_type"; "start_x"; "start_y"; "end_x"; "end_y";
   "line_width"; "color"; "presentation_file_name";
   "path"; "pres"; "slide"; "connector_map"; "connector"; "e"].

(** Evaluation of a name inside [add_connector]: the object it is bound
    to when some enclosing scope binds it, [NameError] otherwise (no
    built-in is called [is_valid_rgb]). *)
Definition load_name {A} (name : string) (bound : A) : M A :=
  if existsb (String.eqb name) (add_connector_locals ++ connector_tools_globals)
  then mret bound
  else raise (Exn NameError ("name '" +:+ name +:+ "' is not defined")).

(** Modelled from the library: [MSO_CONNECTOR.<name>].  A name that is
    not a member raises [AttributeError], whose text is the name. *)
Definition MSO_CONNECTOR_member (name : string) : M MSO_CONNECTOR :=
  if String.eqb name "STRAIGHT" then mret STRAIGHT
  else if String.eqb name "ELBOW" then mret ELBOW
  else if String.eqb name "CURVE" then mret CURVE
  else if String.eqb name "MIXED" then mret MIXED
  else raise (Exn AttributeError name).

(** The dictionary display [connector_map = {...}]: its values are
    evaluated in order, and the third is [MSO_CONNECTOR.CURVED]. *)
Definition connector_map : M (list (string * MSO_CONNECTOR)) :=
  straight <- MSO_CONNECTOR_member "STRAIGHT";;
  elbow <- MSO_CONNECTOR_member "ELBOW";;
  curved <- MSO_CONNECTOR_member "CURVED";;
  mret [("straight", straight); ("elbow", elbow); ("curved", curved)].

Fixpoint lookup_connector (k : string) (m : list (string * MSO_CONNECTOR))
  : option MSO_CONNECTOR :=
  match m with
  | [] => None
  | (k', v) :: rest => if String.eqb k' k then Some v else lookup_connector k rest
  end.

(** [slide.shapes.add_connector(kind, ...)] followed by the optional
    assignments to its line. *)
Definition add_connector_shape (c : Connector) (sl : Slide) : Slide :=
  {| shapes := shapes sl ++ [{| text_frame := None; chart := None;
                                connector := Some c |}];
     transition := transition sl |}.

(** [bool(color)] for [color: List[int] = None] *)
Definition color_truthy (color : option (list Z)) : bool :=
  match color with
  | Some (_ :: _) => true
  | _ => false
  end.

(** The [try] block of [add_connector]. *)
Definition add_connector_body (p : process) (slide_index : Z)
           (connector_type : string)
           (start_x start_y end_x end_y line_width : Py.float64)
           (color : option (list Z))
           (presentation_file_name : option string) : M Py.dict :=
  if negb (Py.opt_str_truthy presentation_file_name) then
    mret (error_response "presentation_file_name is required")
  else
    path <- Server.resolve_presentation_path p (default "" presentation_file_name);;
    found <- exists_ p path;;
    if negb found then
      mret (error_response
              ("File not found: " +:+ Py.fmt_opt_str presentation_file_name))
    else
      pres <- PptUtils.open_presentation p path;;
      if negb (in_range slide_index (slides pres)) then
        mret (error_response
                ("Slide index " +:+ PyStr.of_Z slide_index +:+ " out of range"))
      else
        '(si, slide) <- subscript "slide" (slides pres) slide_index;;
        connector_map <- connector_map;;
        match lookup_connector (PyStr.lower connector_type) connector_map with
        | None =>
            mret (error_response
                    "Invalid connector type. Use: ['straight', 'elbow', 'curved']")
        | Some kind =>
            let connector :=
              {| connector_kind := kind;
                 begin_point := (start_x, start_y);
                 end_point := (end_x, end_y);
                 line_width :=
                   if Py.float_truthy line_width then Some line_width else None;
                 line_rgb := None |} in
            valid <- (if color_truthy color then
                        is_valid_rgb <- load_name "is_valid_rgb" Server.is_valid_rgb;;
                        mret (is_valid_rgb (Py.PList (List.map Py.PInt (default [] color))))
                      else mret false);;
            connector <- (if valid then
                            match default [] color with
                            | [r; g; b] =>
                                mret {| connector_kind := connector_kind connector;
                                        begin_point := begin_point connector;
                                        end_point := end_point connector;
                                        line_width := Document.line_width connector;
                                        line_rgb := Some (r, g, b) |}
                            | _ => raise (Exn TypeError
                                            "RGBColor() takes exactly 3 arguments")
                            end
                          else mret connector);;
            let pres' := alter_slide (add_connector_shape connector) si pres in
            _ <- PptUtils.save_presentation p pres' path;;
            mret [("message",
                   Py.PStr ("Added " +:+ connector_type +:+ " connector to slide "
                            +:+ PyStr.of_Z slide_index));
                  ("connector_type", Py.PStr connector_type);
                  ("start_point", Py.PList [Py.PFloat start_x; Py.PFloat start_y]);
                  ("end_point", Py.PList [Py.PFloat end_x; Py.PFloat end_y]);
                  ("shape_index", Py.PInt (Py.len (shapes slide) + 1 - 1))]
        end.

(** [add_connector(...)] *)
Definition add_connector (p : process) (slide_index : Z)
           (connector_type : string)
           (start_x start_y end_x end_y line_width : Py.float64)
           (color : option (list Z))
           (presentation_file_name : option string) : M Py.dict :=
  try_except
    (add_connector_body p slide_index connector_type start_x start_y end_x end_y
                        line_width color presentation_file_name)
    (fun e => mret (error_response ("Failed to add connector: " +:+ exn_str e))).

(** *** [tools/presentation_tools.py] *)

(** [create_presentation(presentation_file_name)]: no [try] around it. *)
Definition create_presentation (p : process) (presentation_file_name : string)
  : M Py.dict :=
  path <- Server.resolve_presentation_path p presentation_file_name;;
  let pres := PptUtils.create_presentation in
  saved_path <- PptUtils.save_presentation p pres path;;
  mret [("message", Py.PStr ("Created new presentation at: " +:+ saved_path));
        ("file_path", Py.PStr saved_path);
        ("slide_count", Py.PInt (Py.len (slides pres)))].

(** [open_presentation(presentation_file_name)]: the [try] covers the
    library call only. *)
Definition open_presentation (p : process) (presentation_file_name : string)
  : M Py.dict :=
  path <- Server.resolve_presentation_path p presentation_file_name;;
  found <- exists_ p path;;
  if negb found then mret (error_response ("File not found: " +:+ path))
  else
    try_except
      (pres <- PptUtils.open_presentation p path;;
       mret [("message", Py.PStr ("Opened presentation: " +:+ path));
             ("file_path", Py.PStr path);
             ("slide_count", Py.PInt (Py.len (slides pres)))])
      (fun e => mret (error_response
                        ("Failed to open presentation: " +:+ exn_str e))).

(** [set_core_properties(...)]: resolution, the existence test and the
    opening of the file come before the [try]. *)
Definition set_core_properties (p : process)
           (title subject author keywords comments : option string)
           (presentation_file_name : option string) : M Py.dict :=
  if negb (Py.opt_str_truthy presentation_file_name) then
    mret (error_response "presentation_file_name is required")
  else
    path <- Server.resolve_presentation_path p (default "" presentation_file_name);;
    found <- exists_ p path;;
    if negb found then mret (error_response ("File not found: " +:+ path))
    else
      pres <- PptUtils.open_presentation p path;;
      try_except
        (let pres' := PptUtils.set_core_properties pres title subject author
                                                   keywords comments in
         _ <- PptUtils.save_presentation p pres' path;;
         mret [("message", Py.PStr "Core properties updated successfully");
               ("file_path", Py.PStr path)])
        (fun e => mret (error_response
                          ("Failed to set core properties: " +:+ exn_str e))).

End Tools.

(* ===================================================================== *)
(** ** [add_shape_direct] of [ppt_mcp_server.py]                          *)
(* ===================================================================== *)

Module ShapeHelper.

(** [shape_type_map], in the order of the source. *)
Definition shape_type_map : list (string * Z) :=
  [("rectangle", 1); ("rounded_rectangle", 2); ("oval", 9); ("diamond", 4);
   ("triangle", 5); ("right_triangle", 6); ("pentagon", 56); ("hexagon", 10);
   ("heptagon", 11); ("octagon", 12); ("star", 12); ("arrow", 13);
   ("cloud", 35); ("heart", 21); ("lightning_bolt", 22); ("sun", 23);
   ("moon", 24); ("smiley_face", 17); ("no_symbol", 19);
   ("flowchart_process", 112); ("flowchart_decision", 114);
   ("flowchart_data", 115); ("flowchart_document", 119)].

(** [m[k]], [None] when [k not in m]. *)
Fixpoint lookup (k : string) (m : list (string * Z)) : option Z :=
  match m with
  | [] => None
  | (k', v) :: rest => if String.eqb k' k then Some v else lookup k rest
  end.

(** [sorted(xs)] for strings, compared by code points. *)
Fixpoint insert_sorted (x : string) (xs : list string) : list string :=
  match xs with
  | [] => [x]
  | y :: ys => if String.leb x y then x :: xs else y :: insert_sorted x ys
  end.

Definition sorted (xs : list string) : list string :=
  fold_right insert_sorted [] xs.

(** [', '.join(sorted(shape_type_map.keys()))] *)
Definition available_shapes : string :=
  PyStr.join ", " (sorted (List.map fst shape_type_map)).

(** The function returns the created shape or raises [ValueError]. *)
Inductive outcome (A : Type) :=
| Returned (shape : A)
| ValueError (msg : string).
Arguments Returned {A} shape.
Arguments ValueError {A} msg.

(** [add_shape_direct(slide, shape_type, left, top, width, height)].
    [add_shape] stands for the expression inside the [try],
    [slide.shapes.add_shape(shape_value, Inches(left), Inches(top),
    Inches(width), Inches(height))], which belongs to the library. *)
Definition add_shape_direct {A}
           (add_shape : Z -> Py.float64 -> Py.float64 -> Py.float64 -> Py.float64
                        -> OS.result A)
           (shape_type : string) (left top width height : Py.float64)
  : outcome A :=
  let shape_type_lower := PyStr.lower shape_type in
  match lookup shape_type_lower shape_type_map with
  | None =>
      ValueError ("Unsupported shape type: '" +:+ shape_type
                  +:+ "'. Available shape types: " +:+ available_shapes)
  | Some shape_value =>
      match add_shape shape_value left top width height with
      | OS.Ok shape => Returned shape
      | OS.Raise e =>
          ValueError ("Failed to create '" +:+ shape_type
                      +:+ "' shape using direct value " +:+ PyStr.of_Z shape_value
                      +:+ ": " +:+ OS.exn_str e)
      end
  end.

End ShapeHelper.

(* ===================================================================== *)
(** ** The other handlers of [tools/presentation_tools.py]                *)
(* ===================================================================== *)

Module PresentationTools.
Import OS Document.

(** The [for directory in search_dirs] loop of the two template
    handlers: [Some potential_path] is the [break], [None] the [else]. *)
Fixpoint search_template (p : process) (template_name : string)
         (search_dirs : list string) : M (option string) :=
  match search_dirs with
  | [] => mret None
  | directory :: rest =>
      let potential_path := PosixPath.join directory template_name in
      found <- exists_ p potential_path;;
      if found then mret (Some potential_path)
      else search_template p template_name rest
  end.

(** The lookup both template handlers start with: the template path to
    use, or the directories that were searched in vain. *)
Definition locate_template (p : process) (template_path : string)
  : M (string + list string) :=
  found <- exists_ p template_path;;
  if negb found then
    search_dirs <- Server.get_template_search_directories p;;
    hit <- search_template p (PosixPath.basename template_path) search_dirs;;
    mret (match hit with
          | Some potential_path => inl potential_path
          | None => inr search_dirs
          end)
  else mret (inl template_path).

(** [env_path_info] of [create_presentation_from_template] *)
Definition env_path_info (p : process) : string :=
  match environ p !! "PPT_TEMPLATE_PATH" with
  | Some v => if PyStr.truthy v then " (PPT_TEMPLATE_PATH: " +:+ v +:+ ")" else ""
  | None => ""
  end.

(** [create_presentation_from_template(template_path,
    presentation_file_name)].  [from_template] stands for
    [ppt_utils.create_presentation_from_template] and [layout_count] for
    [len(pres.slide_layouts)], which belong to the library. *)
Definition create_presentation_from_template (p : process)
           (from_template : string -> M Presentation)
           (layout_count : Presentation -> Z)
           (template_path presentation_file_name : string) : M Py.dict :=
  located <- locate_template p template_path;;
  match located with
  | inr search_dirs =>
      mret (Tools.error_response
              ("Template file not found: " +:+ template_path
               +:+ ". Searched in " +:+ PyStr.join ", " search_dirs
               +:+ env_path_info p))
  | inl template_path =>
      opened <- try_except (pres <- from_template template_path;; mret (inl pres))
                           (fun e => mret (inr (Tools.error_response
                              ("Failed to create presentation from template: "
                               +:+ exn_str e))));;
      match opened with
      | inr response => mret response
      | inl pres =>
          path <- Server.resolve_presentation_path p presentation_file_name;;
          saved_path <- PptUtils.save_presentation p pres path;;
          mret [("message",
                 Py.PStr ("Created new presentation from template '"
                          +:+ template_path +:+ "'"));
                ("template_path", Py.PStr template_path);
                ("file_path", Py.PStr saved_path);
                ("slide_count", Py.PInt (Py.len (slides pres)));
                ("layout_count", Py.PInt (layout_count pres))]
      end
  end.

(** [get_template_file_info(template_path)]; [get_template_info] stands
    for [ppt_utils.get_template_info]. *)
Definition get_template_file_info (p : process)
           (get_template_info : string -> M Py.dict)
           (template_path : string) : M Py.dict :=
  located <- locate_template p template_path;;
  match located with
  | inr search_dirs =>
      mret (Tools.error_response
              ("Template file not found: " +:+ template_path
               +:+ ". Searched in " +:+ PyStr.join ", " search_dirs))
  | inl template_path =>
      try_except (get_template_info template_path)
                 (fun e => mret (Tools.error_response
                                   ("Failed to get template info: " +:+ exn_str e)))
  end.

(** [save_presentation(presentation_file_name, file_path=None)] *)
Definition save_presentation (p : process) (presentation_file_name : string)
           (file_path : option string) : M Py.dict :=
  src_path <- Server.resolve_presentation_path p presentation_file_name;;
  found <- exists_ p src_path;;
  if negb found then mret (Tools.error_response ("File not found: " +:+ src_path))
  else
    try_except
      (pres <- PptUtils.open_presentation p src_path;;
       let dest_path :=
         if Py.opt_str_truthy file_path
         then PosixPath.abspath (cwd p) (default "" file_path) else src_path in
       saved_path <- PptUtils.save_presentation p pres dest_path;;
       mret [("message", Py.PStr ("Presentation saved to " +:+ saved_path));
             ("file_path", Py.PStr saved_path)])
      (fun e => mret (Tools.error_response
                        ("Failed to save presentation: " +:+ exn_str e))).

(** [d[k] = v] on a [dict]: an existing key keeps its place. *)
Fixpoint dict_set (k : string) (v : Py.value) (d : Py.dict) : Py.dict :=
  match d with
  | [] => [(k, v)]
  | (k', v') :: rest =>
      if String.eqb k' k then (k', v) :: rest else (k', v') :: dict_set k v rest
  end.

(** [get_presentation_info(presentation_file_name)]; [info_of] stands for
    [ppt_utils.get_presentation_info]. *)
Definition get_presentation_info (p : process)
           (info_of : Presentation -> M Py.dict)
           (presentation_file_name : string) : M Py.dict :=
  path <- Server.resolve_presentation_path p presentation_file_name;;
  found <- exists_ p path;;
  if negb found then mret (Tools.error_response ("File not found: " +:+ path))
  else
    try_except
      (pres <- PptUtils.open_presentation p path;;
       info <- info_of pres;;
       mret (dict_set "file_path" (Py.PStr path) info))
      (fun e => mret (Tools.error_response
                        ("Failed to get presentation info: " +:+ exn_str e))).

End PresentationTools.

(* ===================================================================== *)
(** ** Vocabulary of the statements                                       *)
(* ===================================================================== *)

Abbreviation disk := (gmap (list string) OS.node).

(** The node at [k] is a directory. *)
Definition is_dir (f : disk) (k : list string) : bool :=
  match OS.node_at f k with
  | Some OS.Dir => true
  | _ => false
  end.

(** The two disks hold the same regular files with the same contents:
    nothing was saved between them. *)
Definition same_files (f f' : disk) : Prop :=
  ∀ k c, f' !! k = Some (OS.File c) ↔ f !! k = Some (OS.File c).

(** Every node lies in a directory. *)
Definition wf_fs (f : disk) : Prop :=
  map_Forall (λ k _, is_dir f (removelast k) = true) f.

(** [os.path.exists(path)] on the disk [f], as the process sees it. *)
Definition path_exists (p : OS.process) (f : disk) (path : string) : bool :=
  bool_decide (is_Some (OS.node_at f (PosixPath.key (OS.cwd p) path))).

(** The two disks hold the same regular files except possibly at [k0]. *)
Definition same_files_except (k0 : list string) (f f' : disk) : Prop :=
  ∀ k c, k ≠ k0 → (f' !! k = Some (OS.File c) ↔ f !! k = Some (OS.File c)).



(** What [resolve_presentation_path] prints before it raises [e] again. *)
Definition resolution_error_line (e : OS.exn) : string :=
  "Error resolving presentation path: " +:+ OS.exn_str e.






(** A response with a [message] key and no [error] key, and the converse. *)
Definition is_message_response (r : Py.dict) : bool :=
  Py.has_key "message" r && negb (Py.has_key "error" r).

Definition is_error_response (r : Py.dict) : bool :=
  Py.has_key "error" r && negb (Py.has_key "message" r).

(** A constraint holds on a value when its predicate returns a true
    object; it is decided when the predicate returns at all. *)
Definition holds (v : Py.value) (c : Server.constraint) : Prop :=
  fst c v = OS.Ok true.


Definition params_map : Type :=
  list (string * (Py.value * list Server.constraint)).

Definition all_hold (params : params_map) : Prop :=
  Forall (λ param, Forall (holds (fst (snd param))) (snd (snd param))) params.



(** One element passes the test of [is_valid_rgb]: it is an [int]
    (a [bool] is one) between 0 and 255. *)
Definition channel_ok (c : Py.value) : bool :=
  match Server.as_int c with
  | Some n => (0 <=? n) && (n <=? 255)
  | None => false
  end.

(** "Exists and is a directory", for a path as the process sees it. *)
Definition valid_dir (p : OS.process) (w : OS.world) (path : string) : bool :=
  is_dir (OS.fs w) (PosixPath.key (OS.cwd p) path).

(** The kernel's walk along the components of a path from the directory
    at [at_]: each component is looked up in a directory; an empty
    component and [.] stay where they are, [..] steps to the parent (the
    root is its own parent).  [None] when a component is looked up in
    what is not a directory. *)
Fixpoint kernel_walk (f : disk) (at_ : list string) (comps : list string)
  : option (list string) :=
  match comps with
  | [] => Some at_
  | comp :: rest =>
      if is_dir f at_ then
        if String.eqb comp "" || String.eqb comp "." then kernel_walk f at_ rest
        else if String.eqb comp ".." then kernel_walk f (removelast at_) rest
        else kernel_walk f (at_ ++ [comp]) rest
      else None
  end.

(** The components the kernel is given for [path]. *)
Definition path_components (p : OS.process) (path : string) : list string :=
  PyStr.split PosixPath.sep
              (if PosixPath.isabs path then path
               else PosixPath.join (OS.cwd p) path).

(** "Exists and is a directory", as the kernel decides it: the empty
    path names nothing, and every step of the walk is through a
    directory. *)
Definition kernel_isdir (p : OS.process) (f : disk) (path : string) : bool :=
  PyStr.truthy path
  && match kernel_walk f [] (path_components p path) with
     | Some k => is_dir f k
     | None => false
     end.

(** No component of [path], as the process gives it to the kernel, is
    [..]. *)
Definition no_parent_steps (p : OS.process) (path : string) : bool :=
  negb (existsb (String.eqb "..") (path_components p path)).


(** The handler is called on an existing presentation: the identifier
    is not empty, resolution returns [path] in the world [w1], and the
    file there holds the document [pres]. *)
Definition existing_presentation (p : OS.process) (name : string) (w : OS.world)
           (path : string) (w1 : OS.world) (pres : Document.Presentation) : Prop :=
  PyStr.truthy name = true
  ∧ Server.resolve_presentation_path p name w = (OS.Ok path, w1)
  ∧ OS.node_at (OS.fs w1) (PosixPath.key (OS.cwd p) path)
    = Some (OS.File (OS.Pptx pres)).

(** The texts of the out-of-range responses. *)
Definition slide_out_of_range (i : Z) : Py.dict :=
  Tools.error_response ("Slide index " +:+ PyStr.of_Z i +:+ " out of range").

Definition shape_out_of_range (i : option Z) : Py.dict :=
  Tools.error_response ("Shape index " +:+ Py.fmt_opt_int i +:+ " out of range").

Definition run_out_of_range (i : Z) : Py.dict :=
  Tools.error_response ("Run index " +:+ PyStr.of_Z i +:+ " out of range").

(** The entry that the [list] operation of [manage_hyperlinks] reports
    for the run at the given position. *)
Definition hyperlink_entry (shape_idx para_idx run_idx : nat)
           (run : Document.Run) : Py.value :=
  Py.PDict [("shape_index", Py.PInt (Z.of_nat shape_idx));
            ("paragraph_index", Py.PInt (Z.of_nat para_idx));
            ("run_index", Py.PInt (Z.of_nat run_idx));
            ("text", Py.PStr (Document.run_text run));
            ("url", Py.of_opt_str (Document.hyperlink_address run))].

(** The run at the given position of a slide. *)
Definition run_at (slide : Document.Slide) (shape_idx para_idx run_idx : nat)
  : option Document.Run :=
  shape ← Document.shapes slide !! shape_idx;
  tf ← Document.text_frame shape;
  paragraph ← Document.paragraphs tf !! para_idx;
  Document.runs paragraph !! run_idx.

(** Readings of the specification's wording, kept apart from the code so
    that the two can be compared. *)
Module Spec.

(** "a 3-element sequence of integers each in [0, 255]", a list or a
    tuple being a sequence. *)
Definition rgb_sequence (v : Py.value) : bool :=
  match v with
  | Py.PList [a; b; c] | Py.PTuple [a; b; c] =>
      forallb (fun x => match Server.as_int x with
                        | Some n => (0 <=? n) && (n <=? 255)
                        | None => false
                        end) [a; b; c]
  | _ => false
  end.

End Spec.

(** A process and disks on which the statements are exercised. *)
Module Sample.
Import OS Document.

(** A file system that takes names of up to 255 bytes without NUL. *)
Definition name_limits (k : list string) : option exn :=
  if existsb (fun c => (255 <? String.length c)%nat) k then
    Some (Exn OSError (errno_msg "[Errno 36] File name too long"
                                 ("/" +:+ PyStr.join "/" k)))
  else if existsb (PyStr.contains_char "000"%char) k then
    Some (Exn ValueError "embedded null byte")
  else None.

Definition alice : process :=
  {| cwd := "/home/alice";
     environ := ∅;
     platform_system := "Linux";
     pw_dir_uid := Some "/home/alice";
     pw_dir_name := fun _ => None;
     os_refuses := name_limits;
     _presentations_root_cli := None |}.

(** The same process started with [PPT_TEMPLATE_PATH] set to [v]. *)
Definition alice_with_template_path (v : string) : process :=
  {| cwd := cwd alice;
     environ := {[ "PPT_TEMPLATE_PATH" := v ]};
     platform_system := platform_system alice;
     pw_dir_uid := pw_dir_uid alice;
     pw_dir_name := pw_dir_name alice;
     os_refuses := os_refuses alice;
     _presentations_root_cli := None |}.

Definition linked_run : Run :=
  {| run_text := "docs"; hyperlink_address := Some "https://example.org" |}.

Definition text_shape : Shape :=
  {| text_frame := Some {| paragraphs := [ {| runs := [linked_run] |} ] |};
     chart := None; connector := None |}.

Definition chart_shape : Shape :=
  {| text_frame := None;
     chart := Some {| chart_categories := ["Q1"]; chart_series := [] |};
     connector := None |}.

Definition one_slide : Presentation :=
  {| slides := [ {| shapes := [text_shape; chart_shape];
                    transition := Some "fade" |} ];
     core_properties :=
       {| title := "Deck"; subject := ""; author := "alice";
          keywords := ""; comments := "" |} |}.

Definition two_slides : Presentation :=
  {| slides := slides one_slide ++ slides one_slide;
     core_properties := core_properties one_slide |}.

Definition home_dirs : disk :=
  <[ ["home"; "alice"; "presentations"] := Dir ]>
    (<[ ["home"; "alice"] := Dir ]> (<[ ["home"] := Dir ]> ∅)).

(** [deck.pptx] holds [pres]; [notes.pptx] is not a presentation
    package; [todo] is a regular file in the working directory. *)
Definition disk_with (pres : Presentation) : disk :=
  <[ ["home"; "alice"; "presentations"; "deck.pptx"] := File (Pptx pres) ]>
    (<[ ["home"; "alice"; "presentations"; "notes.pptx"] := File (Other "plain text") ]>
       (<[ ["home"; "alice"; "todo"] := File (Other "") ]> home_dirs)).

Definition world_with (pres : Presentation) : world := World (disk_with pres) [].

Definition zero : Py.float64 := Py.F64 0.
Definition one_pt : Py.float64 := Py.F64 0x3FF0000000000000.

End Sample.

(* ===================================================================== *)
(** ** Tactics                                                            *)
(* ===================================================================== *)

(** Unfold the monad's operations so that a handler runs on a world. *)
Ltac run :=
  unfold mbind, M_bind, mret, M_ret, OS.bind, OS.ret, OS.raise,
         OS.try_except, OS.print in *.

(** Decide a closed equation by evaluating both sides. *)
Ltac by_vm :=
  lazymatch goal with
  | |- ?a = ?b => vm_cast_no_check (@eq_refl _ b)
  end.

(** Run a handler through its opening steps on an existing presentation
    [H]: the name test, the resolution, the existence test, the opening. *)
Ltac prologue H :=
  let Hname := fresh "Hname" in
  let Hres := fresh "Hres" in
  let Hfile := fresh "Hfile" in
  destruct H as (Hname & Hres & Hfile);
  run; cbn [Py.opt_str_truthy default from_option id negb]; rewrite Hname; cbn [negb];
  rewrite Hres; unfold OS.exists_, PptUtils.open_presentation;
  rewrite Hfile, bool_decide_eq_true_2 by eauto; cbn beta iota; cbn [negb];
  rewrite Hfile; cbn beta iota.

(** Take the next test of a running handler apart. *)
Ltac next_case :=
  match goal with
  | |- context [match ?x with _ => _ end] =>
      lazymatch x with
      | context [match _ with _ => _ end] => fail
      | context [if _ then _ else _] => fail
      | _ => destruct x eqn:?
      end
  | |- context [if ?b then _ else _] =>
      lazymatch b with
      | context [match _ with _ => _ end] => fail
      | context [if _ then _ else _] => fail
      | _ => destruct b eqn:?
      end
  end.

(** Close a branch in which the handler has returned a dictionary. *)
Ltac answer := do 2 eexists; split; [reflexivity|]; (by left) || (by right).

(** Close one conjunct in a branch of a handler: [H] says that
    resolution kept the files, [k] is where the presentation is. *)
Ltac leaf_goal H k :=
  first
    [ reflexivity
    | by left
    | by right
    | exists k; intros ? ? ?; rewrite ?lookup_insert_ne by done; apply H
    | intros; exact H
    | intros;
      match goal with
      | Hn : OS.node_at ?f ?k0 = Some ?n |- context [<[?k0 := ?n]> ?f] =>
          rewrite (insert_id f k0 n)
            by (destruct k0; [discriminate Hn|exact Hn]);
          exact H
      end
    | by (intros Herr; vm_compute in Herr)
    | by (intros; congruence)
    | by (intros Hop; subst;
          repeat match goal with
                 | Heq : String.eqb _ _ = false |- _ =>
                     vm_compute in Heq; try discriminate Heq; clear Heq
                 end) ].

Ltac handler_leaf H k :=
  simplify_eq; eexists; cbn [fst snd OS.fs]; split_and!; leaf_goal H k.

(* ===================================================================== *)
(** ** The file system under [os.makedirs]                                *)
(* ===================================================================== *)

Section MakeDirs.
Import OS.
Implicit Types (f : disk) (done todo pre k : list string).
Implicit Types (refuses : list string → option exn).

Lemma node_at_nonempty f k : k ≠ [] → node_at f k = f !! k.
Proof. by destruct k. Qed.

Lemma app_nonempty_inv done pre : pre ≠ [] → done ++ pre ≠ [].
Proof. destruct done, pre; naive_solver. Qed.

Lemma is_dir_insert_Dir f h k :
  is_dir f k = true → is_dir (<[h := Dir]> f) k = true.
Proof.
  unfold is_dir. destruct k as [|c k]; [done|]. simpl.
  destruct (decide (h = c :: k)) as [->|Hne].
  - by rewrite lookup_insert_eq.
  - by rewrite lookup_insert_ne.
Qed.

(** What was on the disk stays. *)
Lemma mkdir_p_preserves refuses name todo : ∀ done f r f' k n,
  mkdir_p refuses name done todo f = (r, f') → f !! k = Some n → f' !! k = Some n.
Proof.
  induction todo as [|c rest IH]; intros done f r f' k n Hrun Hk; simpl in Hrun.
  - by simplify_eq.
  - destruct (refuses (done ++ [c])); [by simplify_eq|].
    destruct (f !! (done ++ [c])) as [[|content]|] eqn:Hhere.
    + eauto.
    + destruct rest; by simplify_eq.
    + eapply IH; [exact Hrun|].
      rewrite lookup_insert_ne; [done|]. congruence.
Qed.

(** What is new is a directory on the way to the target. *)
Lemma mkdir_p_new refuses name todo : ∀ done f r f' k n,
  mkdir_p refuses name done todo f = (r, f') → f' !! k = Some n →
  f !! k = Some n ∨
  (n = Dir ∧ ∃ pre, pre ≠ [] ∧ pre `prefix_of` todo ∧ k = done ++ pre).
Proof.
  induction todo as [|c rest IH]; intros done f r f' k n Hrun Hk; simpl in Hrun.
  - left. by simplify_eq.
  - assert (Hsub : ∀ pre, pre ≠ [] → pre `prefix_of` rest →
              ∃ pre', pre' ≠ [] ∧ pre' `prefix_of` c :: rest
                      ∧ (done ++ [c]) ++ pre = done ++ pre').
    { intros pre Hpre Hpf. exists (c :: pre). split_and!; [done| |].
      - by apply prefix_cons.
      - by rewrite <- app_assoc. }
    destruct (refuses (done ++ [c])); [left; by simplify_eq|].
    destruct (f !! (done ++ [c])) as [[|content]|] eqn:Hhere.
    + destruct (IH _ _ _ _ _ _ Hrun Hk) as [?|(-> & pre & ? & ? & ->)]; [by left|].
      right. split; [done|]. by apply Hsub.
    + left. destruct rest; by simplify_eq.
    + destruct (IH _ _ _ _ _ _ Hrun Hk) as [Hold|(-> & pre & ? & ? & ->)].
      * apply lookup_insert_Some in Hold as [[<- <-]|[? ?]]; [|by left].
        right. split; [done|]. exists [c]. split_and!; [done| |done].
        apply prefix_cons, prefix_nil.
      * right. split; [done|]. by apply Hsub.
Qed.

(** After a successful descent every directory on the way exists, and
    none of them was refused. *)
Lemma mkdir_p_dirs refuses name todo : ∀ done f f' pre,
  mkdir_p refuses name done todo f = (Ok tt, f') →
  pre ≠ [] → pre `prefix_of` todo →
  f' !! (done ++ pre) = Some Dir ∧ refuses (done ++ pre) = None.
Proof.
  induction todo as [|c rest IH]; intros done f f' pre Hrun Hpre Hpf.
  - apply prefix_nil_inv in Hpf. done.
  - destruct pre as [|c' pre']; [done|].
    assert (c' = c) as -> by (by eapply prefix_cons_inv_1).
    apply prefix_cons_inv_2 in Hpf. simpl in Hrun.
    destruct (refuses (done ++ [c])) eqn:Hacc; [by simplify_eq|].
    assert (Hstep : ∃ g, mkdir_p refuses name (done ++ [c]) rest g = (Ok tt, f')
                         ∧ g !! (done ++ [c]) = Some Dir).
    { destruct (f !! (done ++ [c])) as [[|content]|] eqn:Hhere.
      - by exists f.
      - destruct rest; by simplify_eq.
      - eexists; split; [exact Hrun|]. by rewrite lookup_insert_eq. }
    destruct Hstep as (g & Hg & Hdir).
    destruct pre' as [|c'' pre''].
    + split; [|done]. eapply mkdir_p_preserves; eauto.
    + replace (done ++ c :: c'' :: pre'') with ((done ++ [c]) ++ c'' :: pre'')
        by (by rewrite <- app_assoc).
      eapply IH; eauto.
Qed.





(** Directories are created inside directories. *)
Lemma mkdir_p_wf refuses name todo : ∀ done f r f',
  wf_fs f → is_dir f done = true →
  mkdir_p refuses name done todo f = (r, f') → wf_fs f'.
Proof.
  induction todo as [|c rest IH]; intros done f r f' Hwf Hdone Hrun; simpl in Hrun.
  - by simplify_eq.
  - destruct (refuses (done ++ [c])); [by simplify_eq|].
    destruct (f !! (done ++ [c])) as [[|content]|] eqn:Hhere.
    + eapply IH; [exact Hwf| |exact Hrun].
      unfold is_dir. rewrite node_at_nonempty, Hhere; [done|].
      by apply app_nonempty_inv.
    + destruct rest; by simplify_eq.
    + eapply IH; [| |exact Hrun].
      * intros k n Hk. apply lookup_insert_Some in Hk as [[<- <-]|[? Hk]].
        -- rewrite removelast_last. by apply is_dir_insert_Dir.
        -- apply is_dir_insert_Dir. by eapply Hwf.
      * unfold is_dir. rewrite node_at_nonempty, lookup_insert_eq; [done|].
        by apply app_nonempty_inv.
Qed.

Lemma mkdir_p_same_files refuses name done todo f r f' :
  mkdir_p refuses name done todo f = (r, f') → same_files f f'.
Proof.
  intros Hrun k c. split.
  - intros Hk. by destruct (mkdir_p_new _ _ _ _ _ _ _ _ _ Hrun Hk) as [?|[? _]].
  - by eapply mkdir_p_preserves.
Qed.

(** Where every directory on the way exists and none is refused, the
    descent changes nothing. *)
Lemma mkdir_p_idem refuses name todo : ∀ base f,
  (∀ pre, pre ≠ [] → pre `prefix_of` todo →
          f !! (base ++ pre) = Some Dir ∧ refuses (base ++ pre) = None) →
  mkdir_p refuses name base todo f = (Ok tt, f).
Proof.
  induction todo as [|c rest IH]; intros base f Hdirs; simpl; [done|].
  destruct (Hdirs [c]) as [-> ->]; [done|apply prefix_cons, prefix_nil|].
  apply IH. intros pre Hpre Hpf. rewrite <- app_assoc.
  apply Hdirs; [done|]. by apply prefix_cons.
Qed.

End MakeDirs.

(* ===================================================================== *)
(** ** Facts about [str] and [os.path]                                    *)
(* ===================================================================== *)

Section Paths.

Lemma isabs_inv s : PosixPath.isabs s = true → ∃ s', s = String "/" s'.
Proof.
  unfold PosixPath.isabs. destruct s as [|c s']; simpl; [done|].
  rewrite andb_true_r. intros <-%Ascii.eqb_eq. eauto.
Qed.

Lemma isabs_cons s' : PosixPath.isabs (String "/" s') = true.
Proof. done. Qed.

(** The head cut off at the last separator is empty exactly when there
    is no separator. *)
Lemma cut_last_head sep s :
  PyStr.truthy (fst (PyStr.cut_last sep s)) = PyStr.mem_char sep s.
Proof.
  induction s as [|c s IH]; simpl; [done|].
  rewrite (Ascii.eqb_sym sep c).
  destruct (PyStr.cut_last sep s) as [[|h0 h] t]; simpl in *.
  - rewrite <- IH, orb_false_r. by destruct (Ascii.eqb c sep).
  - rewrite <- IH. by rewrite orb_true_r.
Qed.

Lemma cut_last_no_sep sep s :
  PyStr.mem_char sep s = false → PyStr.cut_last sep s = (EmptyString, s).
Proof.
  induction s as [|c s IH]; simpl; [done|].
  rewrite (Ascii.eqb_sym sep c). intros [Hc Hs]%orb_false_elim.
  by rewrite (IH Hs), Hc.
Qed.





Lemma normpath_isabs path :
  PosixPath.isabs path = true → PosixPath.isabs (PosixPath.normpath path) = true.
Proof.
  intros Habs. destruct (isabs_inv _ Habs) as [s' ->].
  unfold PosixPath.normpath.
  change (PyStr.startswith "/" (String "/" s')) with true.
  cbn [PyStr.truthy negb].
  by destruct (PyStr.startswith "//" (String "/" s')
               && negb (PyStr.startswith "///" (String "/" s'))).
Qed.

Lemma join_isabs a b :
  PosixPath.isabs a = true → PosixPath.isabs (PosixPath.join a b) = true.
Proof.
  intros Ha. unfold PosixPath.join.
  destruct (PyStr.startswith "/" b) eqn:Hb; [done|].
  destruct (isabs_inv _ Ha) as [a' ->].
  destruct (_ || _); apply isabs_cons.
Qed.

(** [abspath] returns an absolute path in a process whose working
    directory is one. *)
Lemma abspath_isabs cwd path :
  PosixPath.isabs cwd = true → PosixPath.isabs (PosixPath.abspath cwd path) = true.
Proof.
  intros Hcwd. unfold PosixPath.abspath. apply normpath_isabs.
  destruct (PosixPath.isabs path) eqn:Hp; [done|]. by apply join_isabs.
Qed.



(** The code's heuristic, spelled out: the name has a first character
    that is not a period, and a period after it. *)
Lemma looks_like_file_spec base_name :
  Server.looks_like_file base_name = true ↔
  ∃ c rest, base_name = String c rest ∧ c ≠ "."%char
            ∧ PyStr.contains_char "." rest = true.
Proof.
  unfold Server.looks_like_file, PyStr.contains_char.
  destruct base_name as [|c rest]; simpl.
  - split; [done|]. by intros (? & ? & ? & _).
  - rewrite andb_true_r. destruct (Ascii.eqb "." c) eqn:Hc; simpl.
    + apply Ascii.eqb_eq in Hc as <-. split; [done|].
      by intros (? & ? & [= <- <-] & ? & _).
    + apply Ascii.eqb_neq in Hc. rewrite andb_true_r. split.
      * intros H. exists c, rest. by split_and!.
      * by intros (? & ? & [= <- <-] & _ & ?).
Qed.

End Paths.

(* ===================================================================== *)
(** ** Path resolution                                                    *)
(* ===================================================================== *)

Section Resolve.
Import OS.
Implicit Types (p : process) (w : world) (f : disk).





(** However [os.makedirs] ends, no regular file is written and a
    well-formed disk stays so. *)
Lemma makedirs_frame p name w r w1 :
  makedirs p name w = (r, w1) →
  stdout w1 = stdout w ∧ same_files (fs w) (fs w1)
  ∧ (wf_fs (fs w) → wf_fs (fs w1)).
Proof.
  unfold makedirs.
  destruct (mkdir_p (os_refuses p) name [] (PosixPath.key (cwd p) name) (fs w))
    as [r' f'] eqn:Hrun.
  intros [= <- <-]. split_and!; simpl; [done| |].
  - by eapply mkdir_p_same_files.
  - intros Hwf. eapply mkdir_p_wf; [exact Hwf| |exact Hrun]. done.
Qed.



(** A resolution that returns has printed nothing and saved nothing. *)
Lemma resolve_frame p name w path w1 :
  Server.resolve_presentation_path p name w = (Ok path, w1) →
  stdout w1 = stdout w ∧ same_files (fs w) (fs w1)
  ∧ (wf_fs (fs w) → wf_fs (fs w1)).
Proof.
  assert (Hid : stdout w = stdout w ∧ same_files (fs w) (fs w)
                ∧ (wf_fs (fs w) → wf_fs (fs w))) by (by split_and!).
  unfold Server.resolve_presentation_path, Server.resolve_body. run.
  destruct (_ || _).
  - destruct (PyStr.truthy _).
    + destruct (makedirs p _ w) as [[[]|e] w'] eqn:Hmk; intros [= <- <-].
      by eapply makedirs_frame.
    + by intros [= <- <-].
  - destruct (makedirs p _ w) as [[[]|e] w'] eqn:Hmk; intros [= <- <-].
    by eapply makedirs_frame.
Qed.

End Resolve.

(* ===================================================================== *)
(** ** Claims on [resolve_presentation_path]                              *)
(* ===================================================================== *)

Section ResolveClaims.
Import OS.

(** The priority of [get_presentations_root]: a non-empty command-line
    value, else the environment variable, else [./presentations]. *)
Lemma get_presentations_root_priority p :
  Server.get_presentations_root p =
  match _presentations_root_cli p with
  | Some (String c r) => String c r
  | _ => match environ p !! "PPT_PRESENTATIONS_ROOT" with
         | Some v => v
         | None => "./presentations"
         end
  end.
Proof.
  unfold Server.get_presentations_root.
  destruct (_presentations_root_cli p) as [[|c r]|]; simpl;
    by destruct (environ p !! "PPT_PRESENTATIONS_ROOT").
Qed.







End ResolveClaims.

(* ===================================================================== *)
(** ** Claims on the parameter validator                                  *)
(* ===================================================================== *)

Section Validator.
Import OS.
Implicit Types (v : Py.value) (cs : list Server.constraint) (params : params_map).

Lemma check_constraints_pass name v cs :
  Server.check_constraints name v cs = Ok None ↔ Forall (holds v) cs.
Proof.
  induction cs as [|[f msg] cs IH]; simpl.
  - split; [constructor|done].
  - rewrite Forall_cons. unfold holds at 1. simpl.
    destruct (f v) as [[|]|e]; [|split; [done|by intros [? _]]..].
    rewrite IH. split; [by split|by intros [_ ?]].
Qed.

(** The inner loop only ever returns a failure. *)
Lemma check_constraints_returns name v cs r :
  Server.check_constraints name v cs = Ok (Some r) → fst r = false.
Proof.
  induction cs as [|[f msg] cs IH]; simpl; [done|].
  destruct (f v) as [[|]|e]; [done| |done]. by intros [= <-].
Qed.









End Validator.

(* ===================================================================== *)
(** ** Claims on the RGB validator                                        *)
(* ===================================================================== *)

Section Rgb.

Lemma channel_ok_spec c :
  channel_ok c = true ↔ ∃ n, Server.as_int c = Some n ∧ 0 ≤ n ≤ 255.
Proof.
  unfold channel_ok. destruct (Server.as_int c) as [n|].
  - rewrite andb_true_iff, Z.leb_le, Z.leb_le. split.
    + intros ?. by exists n.
    + by intros (? & [= <-] & ?).
  - split; [done|]. by intros (? & ? & _).
Qed.

Lemma is_valid_rgb_list items :
  Server.is_valid_rgb (Py.PList items)
  = Nat.eqb (length items) 3 && forallb channel_ok items.
Proof. simpl. by destruct (Nat.eqb (length items) 3). Qed.

(** C8, as stated, fails: the tuple [(255, 0, 0)] is a 3-element
    sequence of integers in range and the validator rejects it. *)
Lemma is_valid_rgb_rejects_tuple :
  Spec.rgb_sequence (Py.PTuple [Py.PInt 255; Py.PInt 0; Py.PInt 0]) = true
  ∧ Server.is_valid_rgb (Py.PTuple [Py.PInt 255; Py.PInt 0; Py.PInt 0]) = false.
Proof. split; reflexivity. Qed.

(** C8 (amended): the validator accepts exactly the [list] objects of
    three elements, each an [int] (or [bool]) between 0 and 255; it
    rejects every value that is not a [list], every list of another
    length, every list with an element that is not an [int], and every
    list with an element out of range; [[255,0,0]] passes, [[256,0,0]]
    and [[1,2]] fail. *)
Theorem is_valid_rgb_exact (v : Py.value) :
  (Server.is_valid_rgb v = true ↔
   ∃ a b c r g bl,
     v = Py.PList [a; b; c]
     ∧ Server.as_int a = Some r ∧ Server.as_int b = Some g
     ∧ Server.as_int c = Some bl
     ∧ 0 ≤ r ≤ 255 ∧ 0 ≤ g ≤ 255 ∧ 0 ≤ bl ≤ 255)
  ∧ ((∀ items, v ≠ Py.PList items) → Server.is_valid_rgb v = false)
  ∧ (∀ items, v = Py.PList items → length items ≠ 3%nat →
              Server.is_valid_rgb v = false)
  ∧ (∀ items x, v = Py.PList items → x ∈ items → Server.as_int x = None →
                Server.is_valid_rgb v = false)
  ∧ (∀ items x n, v = Py.PList items → x ∈ items → Server.as_int x = Some n →
                  ¬ (0 ≤ n ≤ 255) → Server.is_valid_rgb v = false)
  ∧ Server.is_valid_rgb (Py.PList [Py.PInt 255; Py.PInt 0; Py.PInt 0]) = true
  ∧ Server.is_valid_rgb (Py.PList [Py.PInt 256; Py.PInt 0; Py.PInt 0]) = false
  ∧ Server.is_valid_rgb (Py.PList [Py.PInt 1; Py.PInt 2]) = false.
Proof.
  assert (Hbad : ∀ items x, x ∈ items → channel_ok x = false →
                            Server.is_valid_rgb (Py.PList items) = false).
  { intros items x Hin Hx. rewrite is_valid_rgb_list.
    apply andb_false_iff. right. apply not_true_is_false. intros Hall.
    rewrite forallb_forall in Hall.
    apply list_elem_of_In in Hin. rewrite (Hall x Hin) in Hx. done. }
  split_and!; try reflexivity.
  - split.
    + destruct v as [| | | | |items| |]; try done.
      rewrite is_valid_rgb_list.
      destruct items as [|a [|b [|c [|d rest]]]]; try done. simpl.
      rewrite !andb_true_iff, !channel_ok_spec.
      intros ((r & ? & ?) & (g & ? & ?) & (bl & ? & ?) & _).
      by exists a, b, c, r, g, bl.
    + intros (a & b & c & r & g & bl & -> & Ha & Hb & Hc & Hr & Hg & Hbl).
      rewrite is_valid_rgb_list. simpl.
      rewrite !andb_true_iff, !channel_ok_spec. split_and!; eauto.
  - intros Hnot. destruct v as [| | | | |items| |]; try done. by destruct (Hnot items).
  - intros items -> Hlen. rewrite is_valid_rgb_list.
    apply Nat.eqb_neq in Hlen. by rewrite Hlen.
  - intros items x -> Hin Hx. apply (Hbad items x Hin).
    unfold channel_ok. by rewrite Hx.
  - intros items x n -> Hin Hx Hn. apply (Hbad items x Hin).
    unfold channel_ok. rewrite Hx. apply not_true_is_false.
    rewrite andb_true_iff, !Z.leb_le. done.
Qed.

Lemma is_valid_rgb_exact_witness :
  Server.is_valid_rgb (Py.PList [Py.PInt 0; Py.PInt 300; Py.PBool true]) = false.
Proof.
  apply (proj1 (proj2 (proj2 (proj2 (proj2 (is_valid_rgb_exact _)))))
           [Py.PInt 0; Py.PInt 300; Py.PBool true] (Py.PInt 300) 300).
  - reflexivity.
  - apply list_elem_of_In. simpl. tauto.
  - reflexivity.
  - lia.
Defined.

End Rgb.

(* ===================================================================== *)
(** ** Claims on the template search path                                 *)
(* ===================================================================== *)

Section TemplateSearch.
Import OS.
Implicit Types (p : process) (w : world).

(** The sample disk is well formed. *)
Lemma wf_disk_with pres : wf_fs (Sample.disk_with pres).
Proof.
  apply map_Forall_lookup. intros k n Hk.
  unfold Sample.disk_with, Sample.home_dirs in Hk.
  repeat (apply lookup_insert_Some in Hk as [[<- _]|[_ Hk]]; [reflexivity|]).
  by rewrite lookup_empty in Hk.
Qed.


(** The loop over [env_dirs] is a filter and leaves the world alone. *)
Lemma valid_env_dirs_filter p dirs w :
  Server.valid_env_dirs p dirs w
  = (Ok (List.filter (valid_dir p w) (List.map (expanduser p) dirs)), w).
Proof.
  induction dirs as [|d dirs IH]; [done|].
  cbn [Server.valid_env_dirs List.map List.filter]. run.
  unfold exists_, isdir, valid_dir, is_dir in *.
  destruct (node_at (fs w) (PosixPath.key (cwd p) (expanduser p d)))
    as [[|c]|] eqn:Hnode; simpl; by rewrite IH, ?Hnode.
Qed.











Example template_search_directories_none_valid :
  Server.get_template_search_directories
    (Sample.alice_with_template_path "/no/such/dir") (World ∅ [])
  = (Ok ["."; "./templates"; "./assets"; "./resources"],
     World ∅ ["Warning: PPT_TEMPLATE_PATH directories not found: /no/such/dir"]).
Proof. by_vm. Qed.

(** What the restriction to paths without [..] is for: the lexical
    lookup of the model takes [/home/nope/../alice] for a directory,
    where the kernel, which looks [..] up in [/home/nope], finds
    nothing. *)
Example lexical_lookup_ignores_missing_parents :
  valid_dir Sample.alice (Sample.world_with Sample.one_slide) "/home/nope/../alice"
  = true
  ∧ kernel_isdir Sample.alice (Sample.disk_with Sample.one_slide)
                 "/home/nope/../alice" = false
  ∧ no_parent_steps Sample.alice "/home/nope/../alice" = false.
Proof. split_and!; by_vm. Qed.

End TemplateSearch.

(* ===================================================================== *)
(** ** What the handlers share                                            *)
(* ===================================================================== *)

Section Prologue.
Import OS Document.
Implicit Types (p : process) (w : world) (pres : Presentation).


Lemma open_presentation_pptx p path w pres :
  node_at (fs w) (PosixPath.key (cwd p) path) = Some (File (Pptx pres)) →
  PptUtils.open_presentation p path w = (Ok pres, w).
Proof. intros Hn. unfold PptUtils.open_presentation. by rewrite Hn. Qed.

Lemma in_range_lookup {A} (i : Z) (xs : list A) :
  Tools.in_range i xs = true ↔ 0 ≤ i ∧ is_Some (xs !! Z.to_nat i).
Proof.
  unfold Tools.in_range, Py.len.
  rewrite andb_true_iff, Z.leb_le, Z.ltb_lt, lookup_lt_is_Some. lia.
Qed.

Lemma subscript_in_range {A} {kind : string} (i : Z) (xs : list A) x w :
  0 ≤ i → xs !! Z.to_nat i = Some x →
  Tools.subscript kind xs i w = (Ok (Z.to_nat i, x), w).
Proof.
  intros Hi Hx. unfold Tools.subscript, Py.index_pos, Py.len.
  apply Z.leb_le in Hi as ->.
  assert ((i <? Z.of_nat (length xs)) = true) as ->.
  { apply Z.ltb_lt. apply lookup_lt_Some in Hx. lia. }
  by rewrite Hx.
Qed.

(** Re-saving the document a file already holds changes nothing. *)
Lemma save_presentation_same p path w pres :
  wf_fs (fs w) →
  node_at (fs w) (PosixPath.key (cwd p) path) = Some (File (Pptx pres)) →
  PptUtils.save_presentation p pres path w = (Ok path, w).
Proof.
  intros Hwf Hfile. unfold PptUtils.save_presentation.
  assert (Hk : fs w !! PosixPath.key (cwd p) path = Some (File (Pptx pres))).
  { destruct (PosixPath.key (cwd p) path); [done|exact Hfile]. }
  pose proof (Hwf _ _ Hk) as Hparent. unfold is_dir in Hparent. simpl in Hparent.
  destruct (node_at (fs w) (removelast (PosixPath.key (cwd p) path)))
    as [[|c]|]; try done.
  rewrite Hfile. rewrite insert_id by done. by destruct w.
Qed.

End Prologue.

(* ===================================================================== *)
(** ** Out-of-range indices                                               *)
(* ===================================================================== *)

Section OutOfRange.
Import OS Document.
Implicit Types (p : process) (w : world) (pres : Presentation).

Lemma manage_hyperlinks_slide_out_of_range
      p name w path w1 pres operation slide_index shape_index text url run_index :
  existing_presentation p name w path w1 pres →
  Tools.in_range slide_index (slides pres) = false →
  Tools.manage_hyperlinks p operation slide_index shape_index text url run_index
                          (Some name) w
  = (Ok (slide_out_of_range slide_index), w1).
Proof.
  intros H Hout. unfold Tools.manage_hyperlinks, Tools.manage_hyperlinks_body.
  prologue H. by rewrite Hout.
Qed.

Lemma update_chart_data_slide_out_of_range
      p name w path w1 pres slide_index shape_index categories series_data :
  existing_presentation p name w path w1 pres →
  Tools.in_range slide_index (slides pres) = false →
  Tools.update_chart_data p slide_index shape_index categories series_data
                          (Some name) w
  = (Ok (slide_out_of_range slide_index), w1).
Proof.
  intros H Hout. unfold Tools.update_chart_data, Tools.update_chart_data_body.
  prologue H. by rewrite Hout.
Qed.

Lemma manage_slide_transitions_slide_out_of_range
      p name w path w1 pres slide_index operation transition_type duration :
  existing_presentation p name w path w1 pres →
  Tools.in_range slide_index (slides pres) = false →
  Tools.manage_slide_transitions p slide_index operation transition_type duration
                                 (Some name) w
  = (Ok (slide_out_of_range slide_index), w1).
Proof.
  intros H Hout.
  unfold Tools.manage_slide_transitions, Tools.manage_slide_transitions_body.
  prologue H. by rewrite Hout.
Qed.

Lemma manage_hyperlinks_shape_out_of_range
      p name w path w1 pres operation slide_index slide shape_index text url run_index :
  existing_presentation p name w path w1 pres →
  0 ≤ slide_index → slides pres !! Z.to_nat slide_index = Some slide →
  operation ≠ "list" →
  match shape_index with
  | None => True
  | Some i => Tools.in_range i (shapes slide) = false
  end →
  Tools.manage_hyperlinks p operation slide_index shape_index text url run_index
                          (Some name) w
  = (Ok (shape_out_of_range shape_index), w1).
Proof.
  intros H Hi Hslide Hop Hout.
  unfold Tools.manage_hyperlinks, Tools.manage_hyperlinks_body.
  prologue H.
  assert (Tools.in_range slide_index (slides pres) = true) as ->.
  { apply in_range_lookup. eauto. }
  cbn [negb]. rewrite (subscript_in_range _ _ slide) by done.
  apply String.eqb_neq in Hop as ->.
  destruct shape_index as [i|]; [by rewrite Hout|done].
Qed.

Lemma update_chart_data_shape_out_of_range
      p name w path w1 pres slide_index slide shape_index categories series_data :
  existing_presentation p name w path w1 pres →
  0 ≤ slide_index → slides pres !! Z.to_nat slide_index = Some slide →
  Tools.in_range shape_index (shapes slide) = false →
  Tools.update_chart_data p slide_index shape_index categories series_data
                          (Some name) w
  = (Ok (shape_out_of_range (Some shape_index)), w1).
Proof.
  intros H Hi Hslide Hout.
  unfold Tools.update_chart_data, Tools.update_chart_data_body.
  prologue H.
  assert (Tools.in_range slide_index (slides pres) = true) as ->.
  { apply in_range_lookup. eauto. }
  cbn [negb]. rewrite (subscript_in_range _ _ slide) by done.
  by rewrite Hout.
Qed.

Lemma manage_hyperlinks_run_out_of_range
      p name w path w1 pres operation slide_index slide shape_index shape
      tf par pars text url run_index :
  existing_presentation p name w path w1 pres →
  0 ≤ slide_index → slides pres !! Z.to_nat slide_index = Some slide →
  0 ≤ shape_index → shapes slide !! Z.to_nat shape_index = Some shape →
  text_frame shape = Some tf → paragraphs tf = par :: pars →
  (operation = "update" ∧ Py.opt_str_truthy url = true) ∨ operation = "remove" →
  Py.len (runs par) ≤ run_index →
  Tools.manage_hyperlinks p operation slide_index (Some shape_index) text url
                          run_index (Some name) w
  = (Ok (run_out_of_range run_index), w1).
Proof.
  intros H Hi Hslide Hj Hshape Htf Hpars Hop Hout.
  unfold Tools.manage_hyperlinks, Tools.manage_hyperlinks_body.
  prologue H.
  assert (Tools.in_range slide_index (slides pres) = true) as ->.
  { apply in_range_lookup. eauto. }
  cbn [negb]. rewrite (subscript_in_range _ _ slide) by done.
  assert (Tools.in_range shape_index (shapes slide) = true) as Hin.
  { apply in_range_lookup. eauto. }
  assert ((run_index <? Py.len (runs par)) = false) as Hlt by (apply Z.ltb_ge; lia).
  assert (String.eqb operation "list" = false) as ->
    by (by destruct Hop as [[-> _]| ->]).
  assert (String.eqb operation "add" = false) as Hadd
    by (by destruct Hop as [[-> _]| ->]).
  cbn beta iota zeta. rewrite Hin. cbn [negb default from_option id].
  rewrite (subscript_in_range _ _ shape) by done.
  rewrite Htf, Hadd, Hpars.
  destruct Hop as [[-> Hurl]| ->].
  - change (String.eqb "update" "update") with true. cbn beta iota.
    rewrite Hurl. cbn [negb].
    rewrite (subscript_in_range 0 (par :: pars) par) by done.
    by rewrite Hlt.
  - change (String.eqb "remove" "update") with false.
    change (String.eqb "remove" "remove") with true. cbn beta iota.
    rewrite (subscript_in_range 0 (par :: pars) par) by done.
    by rewrite Hlt.
Qed.

End OutOfRange.

Section OutOfRangeClaim.
Import OS Document.

Lemma existing_deck pres :
  existing_presentation Sample.alice "deck.pptx" (Sample.world_with pres)
    "/home/alice/presentations/deck.pptx" (Sample.world_with pres) pres.
Proof. split_and!; by_vm. Qed.

(** C5, as stated, fails: the error response names the offending index
    but not its bound.  Decks of one and of two slides give the same
    response for slide index 5, and the text mentions neither count. *)
Lemma out_of_range_response_omits_bound :
  Tools.manage_slide_transitions Sample.alice 5 "get" None Sample.zero
    (Some "deck.pptx") (Sample.world_with Sample.one_slide)
  = (Ok [("error", Py.PStr "Slide index 5 out of range")],
     Sample.world_with Sample.one_slide)
  ∧ Tools.manage_slide_transitions Sample.alice 5 "get" None Sample.zero
      (Some "deck.pptx") (Sample.world_with Sample.two_slides)
    = (Ok [("error", Py.PStr "Slide index 5 out of range")],
       Sample.world_with Sample.two_slides)
  ∧ Py.len (slides Sample.one_slide) = 1
  ∧ Py.len (slides Sample.two_slides) = 2
  ∧ PyStr.contains (PyStr.of_Z 1) "Slide index 5 out of range" = false
  ∧ PyStr.contains (PyStr.of_Z 2) "Slide index 5 out of range" = false.
Proof. split_and!; by_vm. Qed.

(** C5 (amended): on an existing presentation, a slide index outside
    [0, len(slides)) makes [manage_hyperlinks], [update_chart_data] and
    [manage_slide_transitions] return the error response
    "Slide index <i> out of range"; with a valid slide, a shape index
    that is missing or outside [0, len(shapes)) makes [manage_hyperlinks]
    (for operations other than [list]) and [update_chart_data] return
    "Shape index <i> out of range"; with a valid text shape, a run index
    at or above the number of runs of the first paragraph makes the
    [update] (with a URL) and [remove] operations return
    "Run index <i> out of range".  The response states the index only.
    In each case the world is left as resolution left it: no file was
    saved and nothing was printed. *)
Theorem out_of_range_index_reported_nothing_saved p name w path w1 pres :
  existing_presentation p name w path w1 pres →
  same_files (fs w) (fs w1) ∧ stdout w1 = stdout w
  ∧ (∀ slide_index,
       Tools.in_range slide_index (slides pres) = false →
       (∀ operation shape_index text url run_index,
          Tools.manage_hyperlinks p operation slide_index shape_index text url
                                  run_index (Some name) w
          = (Ok (slide_out_of_range slide_index), w1))
       ∧ (∀ shape_index categories series_data,
            Tools.update_chart_data p slide_index shape_index categories
                                    series_data (Some name) w
            = (Ok (slide_out_of_range slide_index), w1))
       ∧ (∀ operation transition_type duration,
            Tools.manage_slide_transitions p slide_index operation
                                           transition_type duration (Some name) w
            = (Ok (slide_out_of_range slide_index), w1)))
  ∧ (∀ slide_index slide,
       0 ≤ slide_index → slides pres !! Z.to_nat slide_index = Some slide →
       (∀ operation shape_index text url run_index,
          operation ≠ "list" →
          match shape_index with
          | None => True
          | Some i => Tools.in_range i (shapes slide) = false
          end →
          Tools.manage_hyperlinks p operation slide_index shape_index text url
                                  run_index (Some name) w
          = (Ok (shape_out_of_range shape_index), w1))
       ∧ (∀ shape_index categories series_data,
            Tools.in_range shape_index (shapes slide) = false →
            Tools.update_chart_data p slide_index shape_index categories
                                    series_data (Some name) w
            = (Ok (shape_out_of_range (Some shape_index)), w1))
       ∧ (∀ operation shape_index shape tf par pars text url run_index,
            0 ≤ shape_index → shapes slide !! Z.to_nat shape_index = Some shape →
            text_frame shape = Some tf → paragraphs tf = par :: pars →
            (operation = "update" ∧ Py.opt_str_truthy url = true)
            ∨ operation = "remove" →
            Py.len (runs par) ≤ run_index →
            Tools.manage_hyperlinks p operation slide_index (Some shape_index)
                                    text url run_index (Some name) w
            = (Ok (run_out_of_range run_index), w1))).
Proof.
  intros H.
  destruct (resolve_frame p name w path w1 (proj1 (proj2 H))) as (Hout & Hfiles & _).
  split_and!; try done.
  - intros slide_index Hbad. split_and!; intros.
    + by eapply manage_hyperlinks_slide_out_of_range.
    + by eapply update_chart_data_slide_out_of_range.
    + by eapply manage_slide_transitions_slide_out_of_range.
  - intros slide_index slide Hi Hslide. split_and!; intros.
    + by eapply manage_hyperlinks_shape_out_of_range.
    + by eapply update_chart_data_shape_out_of_range.
    + by eapply manage_hyperlinks_run_out_of_range.
Qed.

Lemma out_of_range_index_reported_nothing_saved_witness :
  Tools.manage_hyperlinks Sample.alice "update" 0 (Some 0) None
                          (Some "https://example.com") 7 (Some "deck.pptx")
                          (Sample.world_with Sample.one_slide)
  = (Ok [("error", Py.PStr "Run index 7 out of range")],
     Sample.world_with Sample.one_slide)
  ∧ Tools.update_chart_data Sample.alice 0 2 ["Q1"] [] (Some "deck.pptx")
                            (Sample.world_with Sample.one_slide)
    = (Ok [("error", Py.PStr "Shape index 2 out of range")],
       Sample.world_with Sample.one_slide)
  ∧ Tools.manage_slide_transitions Sample.alice (-1) "set" None Sample.zero
                                   (Some "deck.pptx")
                                   (Sample.world_with Sample.one_slide)
    = (Ok [("error", Py.PStr "Slide index -1 out of range")],
       Sample.world_with Sample.one_slide).
Proof.
  destruct (out_of_range_index_reported_nothing_saved
              _ _ _ _ _ _ (existing_deck Sample.one_slide))
    as (_ & _ & Hslide & Hshape).
  destruct (Hshape 0 {| shapes := [Sample.text_shape; Sample.chart_shape];
                        transition := Some "fade" |})
    as (_ & Hchart & Hrun); [lia|reflexivity|].
  split_and!.
  - apply (Hrun "update" 0 Sample.text_shape
                {| paragraphs := [ {| runs := [Sample.linked_run] |} ] |}
                {| runs := [Sample.linked_run] |} []);
      [lia|reflexivity|reflexivity|reflexivity| |vm_compute; discriminate].
    left. split; reflexivity.
  - apply Hchart. reflexivity.
  - apply (Hslide (-1)). reflexivity.
Defined.

(** The run index is only tested against the upper bound: index [-1]
    passes the test, is taken from the end, and the file is saved. *)
Example manage_hyperlinks_negative_run_index_saves :
  let run :=
    Tools.manage_hyperlinks Sample.alice "remove" 0 (Some 0) None None (-1)
                            (Some "deck.pptx")
                            (Sample.world_with Sample.one_slide) in
  fst run
  = Ok [("message", Py.PStr "Removed hyperlink 'https://example.org' from text 'docs'");
        ("removed_url", Py.PStr "https://example.org");
        ("text", Py.PStr "docs");
        ("file_path", Py.PStr "/home/alice/presentations/deck.pptx")]
  ∧ fst (PptUtils.open_presentation
           Sample.alice "/home/alice/presentations/deck.pptx" (snd run))
    = Ok {| slides :=
              [ {| shapes :=
                     [ {| text_frame :=
                            Some {| paragraphs :=
                                      [ {| runs := [ {| run_text := "docs";
                                                        hyperlink_address := None |} ] |} ] |};
                          chart := None; connector := None |};
                       Sample.chart_shape ];
                   transition := Some "fade" |} ];
            core_properties := core_properties Sample.one_slide |}.
Proof. cbv zeta. split_and!; by_vm. Qed.

End OutOfRangeClaim.

(* ===================================================================== *)
(** ** Claims on [add_connector] and [manage_slide_transitions]           *)
(* ===================================================================== *)

Section ConnectorAndTransitions.
Import OS Document.

(** No scope of [add_connector] binds [is_valid_rgb]. *)
Lemma is_valid_rgb_unbound {A} (bound : A) w :
  Tools.load_name "is_valid_rgb" bound w
  = (Raise (Exn NameError "name 'is_valid_rgb' is not defined"), w).
Proof. reflexivity. Qed.





(** C10: on an existing presentation on a well-formed disk, with a
    valid slide index, the operations [set] and [remove] of
    [manage_slide_transitions] return a message response and leave the
    world as resolution left it: the file still holds the same
    document, with every slide, shape and transition as before, and no
    other file was written. *)
Theorem manage_slide_transitions_set_remove_change_nothing
        p name w path w1 pres slide_index operation transition_type duration :
  wf_fs (fs w) →
  existing_presentation p name w path w1 pres →
  Tools.in_range slide_index (slides pres) = true →
  operation = "set" ∨ operation = "remove" →
  ∃ response,
    Tools.manage_slide_transitions p slide_index operation transition_type
                                   duration (Some name) w
    = (Ok response, w1)
    ∧ is_message_response response = true
    ∧ PptUtils.open_presentation p path w1 = (Ok pres, w1)
    ∧ same_files (fs w) (fs w1).
Proof.
  intros Hwf H Hslide Hop.
  destruct (resolve_frame p name w path w1 (proj1 (proj2 H))) as (_ & Hfiles & Hwf1).
  pose proof (open_presentation_pptx _ _ _ _ (proj2 (proj2 H))) as Hopen.
  pose proof (save_presentation_same p path w1 pres (Hwf1 Hwf) (proj2 (proj2 H)))
    as Hsave.
  unfold Tools.manage_slide_transitions, Tools.manage_slide_transitions_body.
  prologue H. rewrite Hslide. cbn [negb].
  apply in_range_lookup in Hslide as [Hi [slide Hslide]].
  rewrite (subscript_in_range _ _ slide) by done.
  destruct Hop as [-> | ->].
  - change (String.eqb "set" "get") with false.
    change (String.eqb "set" "set") with true. cbn beta iota.
    rewrite Hsave. eexists. split_and!; [reflexivity|reflexivity|done|done].
  - change (String.eqb "remove" "get") with false.
    change (String.eqb "remove" "set") with false.
    change (String.eqb "remove" "remove") with true. cbn beta iota.
    rewrite Hsave. eexists. split_and!; [reflexivity|reflexivity|done|done].
Qed.

Lemma manage_slide_transitions_set_remove_change_nothing_witness :
  ∃ response,
    Tools.manage_slide_transitions Sample.alice 0 "remove" None Sample.zero
                                   (Some "deck.pptx")
                                   (Sample.world_with Sample.one_slide)
    = (Ok response, Sample.world_with Sample.one_slide)
    ∧ is_message_response response = true.
Proof.
  destruct (manage_slide_transitions_set_remove_change_nothing
              Sample.alice "deck.pptx" (Sample.world_with Sample.one_slide)
              "/home/alice/presentations/deck.pptx"
              (Sample.world_with Sample.one_slide) Sample.one_slide
              0 "remove" None Sample.zero)
    as (response & Hrun & Hmsg & _).
  - apply wf_disk_with.
  - apply existing_deck.
  - reflexivity.
  - by right.
  - exists response. by split.
Defined.

(** The precondition of the two theorems above includes that the
    identifier resolves.  A presentation stored without extension is
    reached by its bare name; named through a directory it makes the
    resolver try to create a directory in its place, and the handler
    answers with an error. *)
Example extensionless_presentation_by_path :
  let w := World (<[ ["home"; "alice"; "presentations"; "deck"]
                     := File (Pptx Sample.one_slide) ]> Sample.home_dirs) [] in
  is_message_response
    (match fst (Tools.manage_slide_transitions Sample.alice 0 "set" None Sample.zero
                                               (Some "deck") w) with
     | Ok response => response
     | Raise _ => []
     end) = true
  ∧ fst (Tools.manage_slide_transitions Sample.alice 0 "set" None Sample.zero
                                        (Some "presentations/deck") w)
    = Ok [("error",
           Py.PStr "Failed to manage slide transitions: [Errno 17] File exists: '/home/alice/presentations/deck'")].
Proof. cbv zeta. split_and!; by_vm. Qed.

End ConnectorAndTransitions.

(* ===================================================================== *)
(** ** The response shape and the handlers' boundaries                    *)
(* ===================================================================== *)

Section Boundary.
Import OS Document.

(** A handler whose whole body is inside [try ... except Exception]
    always returns, and what it returns has exactly one of the keys
    [message] and [error]. *)
Lemma manage_hyperlinks_always_responds
      p operation slide_index shape_index text url run_index name w :
  ∃ response w',
    Tools.manage_hyperlinks p operation slide_index shape_index text url
                            run_index name w
    = (Ok response, w')
    ∧ (is_message_response response = true ∨ is_error_response response = true).
Proof.
  unfold Tools.manage_hyperlinks, Tools.manage_hyperlinks_body. run.
  repeat next_case; answer.
Qed.

Lemma update_chart_data_always_responds
      p slide_index shape_index categories series_data name w :
  ∃ response w',
    Tools.update_chart_data p slide_index shape_index categories series_data
                            name w
    = (Ok response, w')
    ∧ (is_message_response response = true ∨ is_error_response response = true).
Proof.
  unfold Tools.update_chart_data, Tools.update_chart_data_body. run.
  repeat next_case; answer.
Qed.

Lemma manage_slide_transitions_always_responds
      p slide_index operation transition_type duration name w :
  ∃ response w',
    Tools.manage_slide_transitions p slide_index operation transition_type
                                   duration name w
    = (Ok response, w')
    ∧ (is_message_response response = true ∨ is_error_response response = true).
Proof.
  unfold Tools.manage_slide_transitions, Tools.manage_slide_transitions_body. run.
  repeat next_case; answer.
Qed.

Lemma add_connector_always_responds
      p slide_index connector_type start_x start_y end_x end_y line_width
      color name w :
  ∃ response w',
    Tools.add_connector p slide_index connector_type start_x start_y end_x end_y
                        line_width color name w
    = (Ok response, w')
    ∧ (is_message_response response = true ∨ is_error_response response = true).
Proof.
  unfold Tools.add_connector, Tools.add_connector_body, Tools.load_name. run.
  repeat next_case; answer.
Qed.

(** C4: the claim holds of the handlers above and fails of two handlers
    of [presentation_tools.py].  [set_core_properties] opens the file
    before its [try]: on [notes.pptx], which exists and is not a
    presentation package, the library's exception leaves the handler.
    [create_presentation] has no [try]: with the regular file [todo] in
    the way of [todo/deck.pptx], the resolver's [FileExistsError] leaves
    the handler.  On the same file [manage_hyperlinks] and the
    [open_presentation] tool answer with an error response. *)
Theorem presentation_handlers_let_exceptions_escape :
  Tools.set_core_properties Sample.alice (Some "Q3 review") None None None None
                            (Some "notes.pptx")
                            (Sample.world_with Sample.one_slide)
  = (Raise (Exn PackageNotFoundError
                "Package not found at '/home/alice/presentations/notes.pptx'"),
     Sample.world_with Sample.one_slide)
  ∧ Tools.create_presentation Sample.alice "todo/deck.pptx"
                              (Sample.world_with Sample.one_slide)
    = (Raise (Exn FileExistsError "[Errno 17] File exists: '/home/alice/todo'"),
       World (Sample.disk_with Sample.one_slide)
             ["Error resolving presentation path: [Errno 17] File exists: '/home/alice/todo'"])
  ∧ Tools.manage_hyperlinks Sample.alice "list" 0 None None None 0
                            (Some "notes.pptx")
                            (Sample.world_with Sample.one_slide)
    = (Ok [("error",
            Py.PStr "Failed to manage hyperlinks: Package not found at '/home/alice/presentations/notes.pptx'")],
       Sample.world_with Sample.one_slide)
  ∧ Tools.open_presentation Sample.alice "notes.pptx"
                            (Sample.world_with Sample.one_slide)
    = (Ok [("error",
            Py.PStr "Failed to open presentation: Package not found at '/home/alice/presentations/notes.pptx'")],
       Sample.world_with Sample.one_slide).
Proof. split_and!; by_vm. Qed.

End Boundary.

(* ===================================================================== *)
(** ** Claims on the text of error responses                              *)
(* ===================================================================== *)

Section ErrorText.
Import OS Document.

(** The tail cut off at the last separator holds no separator. *)
Lemma cut_last_tail sep s :
  PyStr.mem_char sep (snd (PyStr.cut_last sep s)) = false.
Proof.
  induction s as [|c s IH]; simpl; [done|].
  destruct (PyStr.cut_last sep s) as [[|h0 h] t]; simpl in *; [|done].
  destruct (Ascii.eqb c sep) eqn:Hc; simpl; [done|].
  by rewrite Ascii.eqb_sym, Hc, IH.
Qed.

Lemma basename_no_sep s :
  PyStr.contains_char "/" (PosixPath.basename s) = false.
Proof.
  unfold PosixPath.basename, PosixPath.split, PyStr.contains_char.
  pose proof (cut_last_tail PosixPath.sep s) as Htail.
  by destruct (PyStr.cut_last PosixPath.sep s).
Qed.

(** What is left after [rstrip(chars)] does not end in one of [chars]. *)
Lemma rstrip_with_end p s c :
  p c = true → PyStr.endswith_char c (PyStr.rstrip_with p s) = false.
Proof.
  intros Hc. induction s as [|c0 s IH]; simpl; [done|].
  destruct (PyStr.rstrip_with p s) as [|d r].
  - destruct (p c0) eqn:Hc0; simpl; [done|].
    apply Ascii.eqb_neq. congruence.
  - exact IH.
Qed.

(** A non-empty string has an empty last component only when it ends in
    the separator. *)
Lemma cut_last_tail_empty sep s :
  snd (PyStr.cut_last sep s) = EmptyString →
  s = EmptyString ∨ PyStr.endswith_char sep s = true.
Proof.
  induction s as [|c s IH]; [by left|]. intros Htail. right.
  cbn [PyStr.cut_last] in Htail.
  destruct (PyStr.cut_last sep s) as [[|h0 h] t] eqn:Hcut.
  - destruct (Ascii.eqb c sep) eqn:Hc; [|done]. simpl in Htail. subst t.
    pose proof (cut_last_head sep s) as Hhead. rewrite Hcut in Hhead. simpl in Hhead.
    rewrite (cut_last_no_sep sep s) in Hcut by done.
    injection Hcut as ->. simpl. by rewrite Ascii.eqb_sym.
  - simpl in Htail. destruct (IH Htail) as [->|Hend]; [done|].
    by destruct s.
Qed.

(** X4: whatever the identifier, the sanitized name holds no slash: no
    directory of the caller's path reaches the error text. *)
Lemma sanitize_presentation_name_no_separator name r :
  Tools.sanitize_presentation_name (Some name) = Some r →
  PyStr.contains_char "/" r = false.
Proof.
  unfold Tools.sanitize_presentation_name.
  destruct (PyStr.truthy name) eqn:Hname; simpl.
  2:{ intros [= <-]. by destruct name. }
  destruct (PyStr.truthy (PyStr.strip name)) eqn:Hstrip; simpl.
  2:{ intros [= <-]. by destruct (PyStr.strip name). }
  destruct (PyStr.truthy (PyStr.rstrip "\/" (PyStr.strip name))) eqn:Hrstrip; simpl.
  2:{ intros [= <-]. by destruct (PyStr.rstrip "\/" (PyStr.strip name)). }
  destruct (PyStr.truthy (PosixPath.basename _)) eqn:Hbase; intros [= <-].
  - apply basename_no_sep.
  - exfalso.
    assert (Htail : snd (PyStr.cut_last PosixPath.sep
                           (PyStr.rstrip "\/" (PyStr.strip name))) = EmptyString).
    { unfold PosixPath.basename, PosixPath.split in Hbase.
      destruct (PyStr.cut_last _ _) as [h t]. simpl in *. by destruct t. }
    apply cut_last_tail_empty in Htail as [Hempty|Hend].
    + by rewrite Hempty in Hrstrip.
    + unfold PyStr.rstrip in Hend.
      rewrite rstrip_with_end in Hend; [done|reflexivity].
Qed.

Lemma sanitize_presentation_name_no_separator_witness :
  Tools.sanitize_presentation_name (Some " /srv/decks/q3.pptx/ ") = Some "q3.pptx"
  ∧ PyStr.contains_char "/" "q3.pptx" = false.
Proof.
  split; [reflexivity|].
  apply (sanitize_presentation_name_no_separator " /srv/decks/q3.pptx/ ").
  reflexivity.
Defined.

(** The examples of section 8 for the name sanitizer. *)
Example sanitize_presentation_name_examples :
  Tools.sanitize_presentation_name (Some "/home/user/deck.pptx") = Some "deck.pptx"
  ∧ Tools.sanitize_presentation_name (Some "deck.pptx/") = Some "deck.pptx"
  ∧ Tools.sanitize_presentation_name (Some "") = Some ""
  ∧ Tools.sanitize_presentation_name None = None.
Proof. by split_and!. Qed.

(** C6: the claim holds of [update_chart_data], which passes the
    identifier through [sanitize_presentation_name], and fails of the
    [open_presentation] tool, which puts the resolved path in the text:
    for the identifier [missing.pptx] the caller is told the working
    directory of the server. *)
Theorem open_presentation_error_leaks_resolved_path :
  Tools.open_presentation Sample.alice "missing.pptx"
                          (Sample.world_with Sample.one_slide)
  = (Ok [("error",
          Py.PStr "File not found: /home/alice/presentations/missing.pptx")],
     Sample.world_with Sample.one_slide)
  ∧ PyStr.contains "/home/alice/presentations/"
                   "File not found: /home/alice/presentations/missing.pptx" = true
  ∧ PyStr.contains "/" "missing.pptx" = false
  ∧ Tools.update_chart_data Sample.alice 0 0 [] [] (Some "missing.pptx")
                            (Sample.world_with Sample.one_slide)
    = (Ok [("error", Py.PStr "File not found: missing.pptx")],
       Sample.world_with Sample.one_slide)
  ∧ Tools.update_chart_data Sample.alice 0 0 [] []
                            (Some "/home/alice/drafts/missing.pptx")
                            (World ∅ [])
    = (Ok [("error", Py.PStr "File not found: missing.pptx")],
       World (<[ ["home"; "alice"; "drafts"] := Dir ]>
                (<[ ["home"; "alice"] := Dir ]> (<[ ["home"] := Dir ]> ∅))) []).
Proof. split_and!; by_vm. Qed.

End ErrorText.

(* ===================================================================== *)
(** ** More on path resolution                                            *)
(* ===================================================================== *)

Section ResolveMore.
Import OS.
Implicit Types (p : process) (w : world) (f : disk).

(** Writing a regular file where one already is does not disturb a
    descent that found all its directories. *)
Lemma makedirs_again p name w w1 k c c' out :
  makedirs p name w = (Ok tt, w1) →
  fs w1 !! k = Some (File c) →
  makedirs p name (World (<[k := File c']> (fs w1)) out)
  = (Ok tt, World (<[k := File c']> (fs w1)) out).
Proof.
  unfold makedirs.
  destruct (mkdir_p (os_refuses p) name [] (PosixPath.key (cwd p) name) (fs w))
    as [r f'] eqn:Hrun.
  intros [= -> <-] Hk. simpl in *.
  rewrite (mkdir_p_idem _ name _ [] (<[k := File c']> f')); [done|].
  intros pre Hpre Hpf.
  pose proof (mkdir_p_dirs _ _ _ _ _ _ _ Hrun Hpre Hpf) as [Hdir Hacc].
  split; [|done].
  rewrite lookup_insert_ne; [done|]. intros Heq. rewrite Heq in Hk. congruence.
Qed.

Lemma makedirs_idem p name w w1 :
  makedirs p name w = (Ok tt, w1) → makedirs p name w1 = (Ok tt, w1).
Proof.
  unfold makedirs.
  destruct (mkdir_p (os_refuses p) name [] (PosixPath.key (cwd p) name) (fs w))
    as [r f'] eqn:Hrun.
  intros [= -> <-]. simpl.
  rewrite (mkdir_p_idem _ name _ [] f'); [done|].
  intros pre Hpre Hpf. by eapply mkdir_p_dirs.
Qed.

(** X1: a resolution that returned returns the same path when repeated,
    and the second call changes nothing: neither the disk nor the output. *)
Theorem resolve_presentation_path_idempotent p name w path w1 :
  Server.resolve_presentation_path p name w = (Ok path, w1) →
  Server.resolve_presentation_path p name w1 = (Ok path, w1).
Proof.
  unfold Server.resolve_presentation_path, Server.resolve_body. run.
  destruct (_ || _).
  - destruct (PyStr.truthy _).
    + destruct (makedirs p _ w) as [[[]|e] w'] eqn:Hmk; intros [= <- <-].
      by rewrite (makedirs_idem _ _ _ _ Hmk).
    + by intros [= <- <-].
  - destruct (makedirs p _ w) as [[[]|e] w'] eqn:Hmk; intros [= <- <-].
    by rewrite (makedirs_idem _ _ _ _ Hmk).
Qed.

Lemma resolve_presentation_path_idempotent_witness :
  ∃ w1, Server.resolve_presentation_path Sample.alice "drafts/q3.pptx" (World ∅ [])
        = (Ok "/home/alice/drafts/q3.pptx", w1)
        ∧ Server.resolve_presentation_path Sample.alice "drafts/q3.pptx" w1
          = (Ok "/home/alice/drafts/q3.pptx", w1).
Proof.
  exists (snd (Server.resolve_presentation_path
                 Sample.alice "drafts/q3.pptx" (World ∅ []))).
  split; [by_vm|].
  apply (resolve_presentation_path_idempotent _ _ (World ∅ [])). by_vm.
Defined.

(** The same after the presentation file itself was rewritten. *)
Lemma resolve_after_save p name w path w1 k c c' out :
  Server.resolve_presentation_path p name w = (Ok path, w1) →
  fs w1 !! k = Some (File c) →
  Server.resolve_presentation_path p name (World (<[k := File c']> (fs w1)) out)
  = (Ok path, World (<[k := File c']> (fs w1)) out).
Proof.
  unfold Server.resolve_presentation_path, Server.resolve_body. run.
  destruct (_ || _).
  - destruct (PyStr.truthy _).
    + destruct (makedirs p _ w) as [[[]|e] w'] eqn:Hmk; intros [= <- <-] Hk.
      by rewrite (makedirs_again _ _ _ _ _ _ _ _ Hmk Hk).
    + by intros [= <- <-].
  - destruct (makedirs p _ w) as [[[]|e] w'] eqn:Hmk; intros [= <- <-] Hk.
    by rewrite (makedirs_again _ _ _ _ _ _ _ _ Hmk Hk).
Qed.

(** X2: in a process whose working directory is absolute, every path the
    resolver returns is absolute. *)
Theorem resolve_presentation_path_absolute p name w path w1 :
  PosixPath.isabs (cwd p) = true →
  Server.resolve_presentation_path p name w = (Ok path, w1) →
  PosixPath.isabs path = true.
Proof.
  intros Hcwd.
  unfold Server.resolve_presentation_path, Server.resolve_body. run.
  destruct (_ || _).
  - destruct (PyStr.truthy _).
    + destruct (makedirs p _ w) as [[[]|e] w']; intros [= <- <-].
      by apply abspath_isabs.
    + intros [= <- <-]. by apply abspath_isabs.
  - destruct (makedirs p _ w) as [[[]|e] w']; intros [= <- <-].
    by apply join_isabs, abspath_isabs.
Qed.

Lemma resolve_presentation_path_absolute_witness :
  ∃ path w1, Server.resolve_presentation_path Sample.alice " .." (World ∅ [])
             = (Ok path, w1)
             ∧ path = "/home/alice/presentations/.."
             ∧ PosixPath.isabs path = true.
Proof.
  exists (PosixPath.join "/home/alice/presentations" ".."),
         (snd (Server.resolve_presentation_path Sample.alice " .." (World ∅ []))).
  split_and!; [by_vm|by_vm|].
  apply (resolve_presentation_path_absolute
           Sample.alice " .." (World ∅ []) _
           (snd (Server.resolve_presentation_path Sample.alice " .." (World ∅ []))));
    by_vm.
Defined.

(** What a resolution does to the disk, whether it returns or raises. *)
Lemma resolve_disk_grows p name w :
  let w1 := snd (Server.resolve_presentation_path p name w) in
  same_files (fs w) (fs w1)
  ∧ fs w ⊆ fs w1
  ∧ (∀ k n, fs w1 !! k = Some n → fs w !! k = Some n ∨ n = Dir)
  ∧ (wf_fs (fs w) → wf_fs (fs w1)).
Proof.
  assert (Hmk : ∀ name', let w1 := snd (makedirs p name' w) in
            same_files (fs w) (fs w1) ∧ fs w ⊆ fs w1
            ∧ (∀ k n, fs w1 !! k = Some n → fs w !! k = Some n ∨ n = Dir)
            ∧ (wf_fs (fs w) → wf_fs (fs w1))).
  { intros name'. unfold makedirs.
    destruct (mkdir_p (os_refuses p) name' [] (PosixPath.key (cwd p) name') (fs w))
      as [r f'] eqn:Hrun.
    simpl. split_and!.
    - by eapply mkdir_p_same_files.
    - apply map_subseteq_spec. intros k n. by eapply mkdir_p_preserves.
    - intros k n Hk.
      destruct (mkdir_p_new _ _ _ _ _ _ _ _ _ Hrun Hk) as [?|[? _]]; eauto.
    - intros Hwf. eapply mkdir_p_wf; [exact Hwf| |exact Hrun]. done. }
  assert (Hid : same_files (fs w) (fs w) ∧ fs w ⊆ fs w
                ∧ (∀ k n, fs w !! k = Some n → fs w !! k = Some n ∨ n = Dir)
                ∧ (wf_fs (fs w) → wf_fs (fs w))) by (split_and!; eauto; done).
  unfold Server.resolve_presentation_path, Server.resolve_body. run.
  destruct (_ || _).
  - destruct (PyStr.truthy _); [|exact Hid].
    specialize (Hmk (Server.dir_to_create
                       (PosixPath.abspath (cwd p) (PyStr.strip name)))).
    by destruct (makedirs p _ w) as [[[]|e] w'].
  - specialize (Hmk (PosixPath.abspath (cwd p) (Server.get_presentations_root p))).
    by destruct (makedirs p _ w) as [[[]|e] w'].
Qed.

(** X3: however a resolution ends, it has written, changed and removed
    no regular file; everything that was on the disk is still there,
    what is new is a directory, and a well-formed disk stays so.  A
    resolution that returns prints nothing, and one that raises prints
    exactly one line, naming the exception it raises. *)
Theorem resolve_presentation_path_only_adds_directories p name w :
  let run := Server.resolve_presentation_path p name w in
  let w1 := snd run in
  same_files (fs w) (fs w1)
  ∧ fs w ⊆ fs w1
  ∧ (∀ k n, fs w1 !! k = Some n → fs w !! k = Some n ∨ n = Dir)
  ∧ (wf_fs (fs w) → wf_fs (fs w1))
  ∧ stdout w1 = match fst run with
                | Ok _ => stdout w
                | Raise e => stdout w ++ [resolution_error_line e]
                end.
Proof.
  cbv zeta. pose proof (resolve_disk_grows p name w) as (Hsame & Hsub & Hnew & Hwf).
  do 4 (split; [assumption|]). clear.
  unfold Server.resolve_presentation_path, Server.resolve_body, makedirs,
         resolution_error_line.
  run. destruct (_ || _).
  - destruct (PyStr.truthy _); [|done].
    by destruct (mkdir_p _ _ _ _ _) as [[[]|e] f'].
  - by destruct (mkdir_p _ _ _ _ _) as [[[]|e] f'].
Qed.

End ResolveMore.

(* ===================================================================== *)
(** ** What a handler leaves on the disk                                  *)
(* ===================================================================== *)

Section SavesNothing.
Import OS Document.
Implicit Types (p : process) (w : world) (f : disk).

Lemma same_files_refl f : same_files f f.
Proof. by intros k c. Qed.

(** X5: [manage_hyperlinks] never raises and answers with exactly one of
    [message] and [error]; when the answer is an error, and whenever the
    operation is [list], no regular file was written or changed; in every
    case at most one file, the presentation itself, differs afterwards. *)
Theorem manage_hyperlinks_effects
        p operation slide_index shape_index text url run_index name w :
  let run := Tools.manage_hyperlinks p operation slide_index shape_index text url
                                     run_index name w in
  ∃ response,
    fst run = Ok response
    ∧ (is_message_response response = true ∨ is_error_response response = true)
    ∧ (is_error_response response = true → same_files (fs w) (fs (snd run)))
    ∧ (operation = "list" → same_files (fs w) (fs (snd run)))
    ∧ ∃ k, same_files_except k (fs w) (fs (snd run)).
Proof.
  cbv zeta. unfold Tools.manage_hyperlinks, Tools.manage_hyperlinks_body.
  unfold exists_, PptUtils.open_presentation, Tools.subscript,
         PptUtils.save_presentation.
  run. destruct name as [name|]; cbn [default from_option id Py.opt_str_truthy negb];
    [|handler_leaf (same_files_refl (fs w)) (@nil string)].
  destruct (PyStr.truthy name); cbn [negb];
    [|handler_leaf (same_files_refl (fs w)) (@nil string)].
  pose proof (resolve_disk_grows p name w) as (Hfiles & _).
  destruct (Server.resolve_presentation_path p name w) as [[path|e] w1];
    cbn [snd] in Hfiles.
  - repeat next_case; handler_leaf Hfiles (PosixPath.key (cwd p) path).
  - handler_leaf Hfiles (@nil string).
Qed.

(** X6: [update_chart_data] never raises and answers with exactly one of
    [message] and [error]; when the answer is an error no regular file
    was written or changed; in every case at most one file differs
    afterwards. *)
Theorem update_chart_data_effects
        p slide_index shape_index categories series_data name w :
  let run := Tools.update_chart_data p slide_index shape_index categories
                                     series_data name w in
  ∃ response,
    fst run = Ok response
    ∧ (is_message_response response = true ∨ is_error_response response = true)
    ∧ (is_error_response response = true → same_files (fs w) (fs (snd run)))
    ∧ ∃ k, same_files_except k (fs w) (fs (snd run)).
Proof.
  cbv zeta. unfold Tools.update_chart_data, Tools.update_chart_data_body.
  unfold exists_, PptUtils.open_presentation, Tools.subscript,
         PptUtils.save_presentation.
  run. destruct name as [name|]; cbn [default from_option id Py.opt_str_truthy negb];
    [|handler_leaf (same_files_refl (fs w)) (@nil string)].
  destruct (PyStr.truthy name); cbn [negb];
    [|handler_leaf (same_files_refl (fs w)) (@nil string)].
  pose proof (resolve_disk_grows p name w) as (Hfiles & _).
  destruct (Server.resolve_presentation_path p name w) as [[path|e] w1];
    cbn [snd] in Hfiles.
  - repeat next_case; handler_leaf Hfiles (PosixPath.key (cwd p) path).
  - handler_leaf Hfiles (@nil string).
Qed.

(** X7: [manage_slide_transitions] never raises, answers with exactly one
    of [message] and [error], and whatever the operation and the other
    arguments, no regular file is written or changed: where it saves, it
    saves the document it has just read. *)
Theorem manage_slide_transitions_effects
        p slide_index operation transition_type duration name w :
  let run := Tools.manage_slide_transitions p slide_index operation
                                            transition_type duration name w in
  ∃ response,
    fst run = Ok response
    ∧ (is_message_response response = true ∨ is_error_response response = true)
    ∧ same_files (fs w) (fs (snd run)).
Proof.
  cbv zeta.
  unfold Tools.manage_slide_transitions, Tools.manage_slide_transitions_body.
  unfold exists_, PptUtils.open_presentation, Tools.subscript,
         PptUtils.save_presentation.
  run. destruct name as [name|]; cbn [default from_option id Py.opt_str_truthy negb];
    [|handler_leaf (same_files_refl (fs w)) (@nil string)].
  destruct (PyStr.truthy name); cbn [negb];
    [|handler_leaf (same_files_refl (fs w)) (@nil string)].
  pose proof (resolve_disk_grows p name w) as (Hfiles & _).
  destruct (Server.resolve_presentation_path p name w) as [[path|e] w1];
    cbn [snd] in Hfiles.
  - repeat next_case; handler_leaf Hfiles (PosixPath.key (cwd p) path).
  - handler_leaf Hfiles (@nil string).
Qed.

(** X8: [add_connector] never raises and answers with exactly one of
    [message] and [error]; when the answer is an error, and whenever a
    non-empty colour is given, no regular file was written or changed;
    in every case at most one file differs afterwards. *)
Theorem add_connector_effects
        p slide_index connector_type start_x start_y end_x end_y line_width
        color name w :
  let run := Tools.add_connector p slide_index connector_type start_x start_y
                                 end_x end_y line_width color name w in
  ∃ response,
    fst run = Ok response
    ∧ (is_message_response response = true ∨ is_error_response response = true)
    ∧ (is_error_response response = true → same_files (fs w) (fs (snd run)))
    ∧ (Tools.color_truthy color = true →
       is_error_response response = true ∧ same_files (fs w) (fs (snd run)))
    ∧ ∃ k, same_files_except k (fs w) (fs (snd run)).
Proof.
  cbv zeta. unfold Tools.add_connector, Tools.add_connector_body, Tools.load_name.
  unfold exists_, PptUtils.open_presentation, Tools.subscript,
         PptUtils.save_presentation.
  change (existsb (String.eqb "is_valid_rgb")
                  (Tools.add_connector_locals ++ Tools.connector_tools_globals))
    with false.
  change Tools.connector_map
    with (λ w0 : world,
            (@Raise (list (string * MSO_CONNECTOR)) (Exn AttributeError "CURVED"),
             w0)).
  run. cbn beta iota.
  destruct name as [name|]; cbn [default from_option id Py.opt_str_truthy negb];
    [|handler_leaf (same_files_refl (fs w)) (@nil string)].
  destruct (PyStr.truthy name); cbn [negb];
    [|handler_leaf (same_files_refl (fs w)) (@nil string)].
  pose proof (resolve_disk_grows p name w) as (Hfiles & _).
  destruct (Server.resolve_presentation_path p name w) as [[path|e] w1];
    cbn [snd] in Hfiles.
  - repeat next_case; handler_leaf Hfiles (PosixPath.key (cwd p) path).
  - handler_leaf Hfiles (@nil string).
Qed.

(** X20: [add_connector] cannot succeed.  Whatever its arguments and
    whatever is on the disk, it answers with an error and never with a
    message, and no regular file is written or changed: every call that
    gets as far as the table of connector types stops there, on
    [MSO_CONNECTOR.CURVED], which the library's enumeration does not
    have. *)
Theorem add_connector_never_succeeds
        p slide_index connector_type start_x start_y end_x end_y line_width
        color name w :
  let run := Tools.add_connector p slide_index connector_type start_x start_y
                                 end_x end_y line_width color name w in
  ∃ response,
    fst run = Ok response
    ∧ is_error_response response = true
    ∧ is_message_response response = false
    ∧ same_files (fs w) (fs (snd run)).
Proof.
  cbv zeta. unfold Tools.add_connector, Tools.add_connector_body.
  unfold exists_, PptUtils.open_presentation, Tools.subscript.
  change Tools.connector_map
    with (λ w0 : world,
            (@Raise (list (string * MSO_CONNECTOR)) (Exn AttributeError "CURVED"),
             w0)).
  run. cbn beta iota.
  destruct name as [name|]; cbn [default from_option id Py.opt_str_truthy negb];
    [|eexists; split_and!; [reflexivity..|apply same_files_refl]].
  destruct (PyStr.truthy name); cbn [negb];
    [|eexists; split_and!; [reflexivity..|apply same_files_refl]].
  pose proof (resolve_disk_grows p name w) as (Hfiles & _).
  destruct (Server.resolve_presentation_path p name w) as [[path|e] w1];
    cbn [snd] in Hfiles.
  - repeat next_case; simplify_eq; eexists; cbn [fst snd fs];
      (split_and!; [reflexivity..|exact Hfiles]).
  - eexists; cbn [fst snd fs]. split_and!; [reflexivity..|exact Hfiles].
Qed.

End SavesNothing.

(* ===================================================================== *)
(** ** More on the validators                                             *)
(* ===================================================================== *)

Section ValidatorMore.
Import OS.
Implicit Types (v : Py.value) (cs : list Server.constraint) (params : params_map).

(** X9: validating two mappings laid end to end is validating the first
    and, only when it passes, the second: a failure or an exception of
    the first is the result, and the second is not looked at. *)
Theorem validate_parameters_app (params more : params_map) :
  Server.validate_parameters (params ++ more)
  = match Server.validate_parameters params with
    | Ok (true, _) => Server.validate_parameters more
    | other => other
    end.
Proof.
  induction params as [|[name [v cs]] params IH]; simpl; [done|].
  destruct (Server.check_constraints name v cs) as [[[b msg]|]|e] eqn:Hcheck.
  - apply check_constraints_returns in Hcheck. simpl in Hcheck. by subst b.
  - exact IH.
  - done.
Qed.

Lemma check_constraints_raise name v passed f msg later e :
  Forall (holds v) passed → f v = Raise e →
  Server.check_constraints name v (passed ++ (f, msg) :: later) = Raise e.
Proof.
  intros Hpassed Hf. induction Hpassed as [|[g m] passed Hg _ IH]; simpl.
  - by rewrite Hf.
  - unfold holds in Hg. simpl in Hg. by rewrite Hg.
Qed.

(** X10: a predicate that raises after only holding constraints, in
    mapping order, makes [validate_parameters] raise that exception:
    no result is returned, and nothing later is evaluated. *)
Theorem validate_parameters_raises
        before name v passed f msg later after e :
  all_hold before → Forall (holds v) passed → f v = Raise e →
  Server.validate_parameters
    (before ++ (name, (v, passed ++ (f, msg) :: later)) :: after)
  = Raise e.
Proof.
  intros Hbefore Hpassed Hf.
  induction Hbefore as [|[n [v0 cs0]] before Hcs _ IH]; simpl.
  - by rewrite (check_constraints_raise name v passed f msg later e).
  - apply check_constraints_pass with (name := n) in Hcs. simpl in Hcs.
    by rewrite Hcs.
Qed.

Lemma validate_parameters_raises_witness :
  Server.validate_parameters
    [("width", (Py.PInt 4, [(Server.is_positive, "must be positive")]));
     ("left", (Py.PNone, [(Server.is_non_negative, "must be non-negative")]));
     ("top", (Py.PInt (-1), [(Server.is_positive, "must be positive")]))]
  = Raise (Exn TypeError
               "'>=' not supported between instances of 'NoneType' and 'int'").
Proof.
  apply (validate_parameters_raises
           [("width", (Py.PInt 4, [(Server.is_positive, "must be positive")]))]
           "left" Py.PNone [] Server.is_non_negative "must be non-negative" []
           [("top", (Py.PInt (-1), [(Server.is_positive, "must be positive")]))]).
  - repeat constructor.
  - constructor.
  - reflexivity.
Defined.

(** X11: [is_positive] and [is_non_negative] raise on the same values
    (those that are neither [int], [bool] nor [float]); whatever is
    positive is non-negative; and the values that are non-negative
    without being positive are exactly the zeros: [0], [False], [0.0]
    and [-0.0]. *)
Theorem is_positive_is_non_negative v :
  ((∃ e, Server.is_positive v = Raise e) ↔ (∃ e, Server.is_non_negative v = Raise e))
  ∧ (Server.is_positive v = Ok true → Server.is_non_negative v = Ok true)
  ∧ (Server.is_non_negative v = Ok true ∧ Server.is_positive v = Ok false
     ↔ v = Py.PInt 0 ∨ v = Py.PBool false
       ∨ v = Py.PFloat (Py.F64 0) ∨ v = Py.PFloat (Py.F64 (2 ^ 63))).
Proof.
  split_and!.
  - destruct v; simpl; split; intros [e He]; try done; eauto.
  - destruct v as [| b | n | [bits] | | | |]; simpl; try done.
    + intros [= H]. f_equal. lia.
    + intros [= H]. f_equal.
      apply andb_true_iff in H as [_ ->]. done.
  - destruct v as [| b | n | [bits] | | | |]; simpl.
    + split; [by intros [? ?]|by intros [?|[?|[?|?]]]].
    + split.
      * intros [_ [= ->]]. by right; left.
      * intros [?|[[= ->]|[?|?]]]; done.
    + split.
      * intros [[= H1] [= H2]]. left. f_equal. lia.
      * intros [[= ->]|[?|[?|?]]]; done.
    + unfold Server.pos_inf_bits. split.
      * intros [[= H1] [= H2]].
        apply orb_true_iff in H1. apply andb_false_iff in H2.
        rewrite N.leb_le, N.eqb_eq in H1. rewrite N.ltb_ge, N.leb_gt in H2.
        assert (bits = 0 ∨ bits = 2 ^ 63)%N as [->| ->] by lia; auto.
      * intros [?|[?|[[= ->]|[= ->]]]]; done.
    + split; [by intros [? ?]|by intros [?|[?|[?|?]]]].
    + split; [by intros [? ?]|by intros [?|[?|[?|?]]]].
    + split; [by intros [? ?]|by intros [?|[?|[?|?]]]].
    + split; [by intros [? ?]|by intros [?|[?|[?|?]]]].
Qed.

End ValidatorMore.

(* ===================================================================== *)
(** ** [add_shape_direct]                                                 *)
(* ===================================================================== *)

Section AddShapeDirect.
Import ShapeHelper.

Lemma in_insert_sorted x y xs : In x (insert_sorted y xs) ↔ x = y ∨ In x xs.
Proof.
  induction xs as [|z xs IH]; simpl.
  - intuition.
  - destruct (String.leb y z); simpl; [intuition|]. rewrite IH. intuition.
Qed.

Lemma in_sorted x xs : In x (sorted xs) ↔ In x xs.
Proof.
  induction xs as [|y xs IH]; simpl; [done|].
  rewrite in_insert_sorted, IH. intuition.
Qed.

Lemma lookup_None k m : lookup k m = None ↔ ¬ In k (List.map fst m).
Proof.
  induction m as [|[k' v] m IH]; simpl; [intuition|].
  destruct (String.eqb k' k) eqn:Heq.
  - apply String.eqb_eq in Heq. intuition discriminate.
  - apply String.eqb_neq in Heq. rewrite IH. intuition.
Qed.

(** Every key with its value. *)
Lemma lookup_shape_type_map k v :
  lookup k shape_type_map = Some v → In (k, v) shape_type_map.
Proof.
  unfold shape_type_map. generalize dependent v.
  repeat (cbn [lookup];
          match goal with
          | |- ∀ v, (if String.eqb ?k' k then _ else _) = _ → _ =>
              destruct (String.eqb k' k) eqn:Heq;
              [apply String.eqb_eq in Heq; subst; intros v [= <-];
               apply list_elem_of_In; set_solver
              |clear Heq]
          end).
  done.
Qed.

(** X12: a shape type is accepted exactly when its lower-case form is one
    of the names listed in the error message; an accepted type reaches
    the library with the table's value for that lower-case form, and a
    library failure comes back as [ValueError]; any other type is
    answered, without the library, by a [ValueError] that quotes the type
    as given and lists the 23 names in sorted order. *)
Theorem add_shape_direct_accepts_listed_names
        {A} (add_shape : Z → Py.float64 → Py.float64 → Py.float64 → Py.float64
                         → OS.result A)
        shape_type left top width height :
  let names := sorted (List.map fst shape_type_map) in
  (In (PyStr.lower shape_type) names →
   ∃ shape_value,
     lookup (PyStr.lower shape_type) shape_type_map = Some shape_value
     ∧ add_shape_direct add_shape shape_type left top width height
       = match add_shape shape_value left top width height with
         | OS.Ok shape => Returned shape
         | OS.Raise e =>
             ValueError ("Failed to create '" +:+ shape_type
                         +:+ "' shape using direct value "
                         +:+ PyStr.of_Z shape_value +:+ ": " +:+ OS.exn_str e)
         end)
  ∧ (¬ In (PyStr.lower shape_type) names →
     add_shape_direct add_shape shape_type left top width height
     = ValueError ("Unsupported shape type: '" +:+ shape_type
                   +:+ "'. Available shape types: " +:+ PyStr.join ", " names))
  ∧ PyStr.join ", " names
    = "arrow, cloud, diamond, flowchart_data, flowchart_decision, flowchart_document, flowchart_process, heart, heptagon, hexagon, lightning_bolt, moon, no_symbol, octagon, oval, pentagon, rectangle, right_triangle, rounded_rectangle, smiley_face, star, sun, triangle".
Proof.
  cbv zeta. split_and!.
  - intros Hin. rewrite in_sorted in Hin. unfold add_shape_direct.
    destruct (lookup (PyStr.lower shape_type) shape_type_map) as [v|] eqn:Hv.
    + by exists v.
    + apply lookup_None in Hv. contradiction.
  - intros Hout. rewrite in_sorted, <- lookup_None in Hout.
    unfold add_shape_direct. by rewrite Hout.
  - by_vm.
Qed.

Lemma add_shape_direct_accepts_listed_names_witness :
  add_shape_direct (λ v _ _ _ _, OS.Ok v) "Smiley_Face"
                   Sample.zero Sample.zero Sample.one_pt Sample.one_pt
  = Returned 17
  ∧ add_shape_direct (λ v _ _ _ _, OS.Ok v) "smiley"
                     Sample.zero Sample.zero Sample.one_pt Sample.one_pt
    = ValueError ("Unsupported shape type: 'smiley'. Available shape types: "
                  +:+ available_shapes).
Proof.
  destruct (add_shape_direct_accepts_listed_names
              (λ v _ _ _ _, OS.Ok v) "Smiley_Face"
              Sample.zero Sample.zero Sample.one_pt Sample.one_pt)
    as (Hyes & _ & _).
  destruct (add_shape_direct_accepts_listed_names
              (λ v _ _ _ _, OS.Ok v) "smiley"
              Sample.zero Sample.zero Sample.one_pt Sample.one_pt)
    as (_ & Hno & _).
  split.
  - destruct Hyes as (v & Hv & ->).
    + vm_compute. tauto.
    + vm_compute in Hv. by injection Hv as <-.
  - apply Hno. vm_compute. intuition discriminate.
Defined.

(** X13: the table sends two names to one value only for [octagon] and
    [star], both 12: for every library and every position and size, a
    [star] request returns a shape exactly when an [octagon] request
    returns that shape. *)
Theorem shape_type_map_collision
        {A} (add_shape : Z → Py.float64 → Py.float64 → Py.float64 → Py.float64
                         → OS.result A) :
  (∀ a b v, a ≠ b → lookup a shape_type_map = Some v →
            lookup b shape_type_map = Some v →
            (a = "octagon" ∧ b = "star") ∨ (a = "star" ∧ b = "octagon"))
  ∧ lookup "octagon" shape_type_map = Some 12
  ∧ lookup "star" shape_type_map = Some 12
  ∧ (∀ left top width height shape,
       add_shape_direct add_shape "star" left top width height = Returned shape
       ↔ add_shape_direct add_shape "octagon" left top width height
         = Returned shape).
Proof.
  split_and!; [|done|done|].
  - intros a b v Hne Ha Hb.
    apply lookup_shape_type_map in Ha. apply lookup_shape_type_map in Hb.
    assert (Hall :
      forallb (λ x, forallb (λ y,
        implb (negb (String.eqb (fst x) (fst y)) && (snd x =? snd y))
              ((String.eqb (fst x) "octagon" && String.eqb (fst y) "star")
               || (String.eqb (fst x) "star" && String.eqb (fst y) "octagon")))
        shape_type_map) shape_type_map = true) by by_vm.
    rewrite forallb_forall in Hall. specialize (Hall _ Ha).
    rewrite forallb_forall in Hall. specialize (Hall _ Hb). simpl in Hall.
    apply String.eqb_neq in Hne. rewrite Hne, Z.eqb_refl in Hall. simpl in Hall.
    apply orb_true_iff in Hall as [H|H]; apply andb_true_iff in H as [H1 H2];
      apply String.eqb_eq in H1, H2; auto.
  - intros left top width height shape. unfold add_shape_direct.
    change (lookup (PyStr.lower "star") shape_type_map) with (Some 12).
    change (lookup (PyStr.lower "octagon") shape_type_map) with (Some 12).
    cbn beta iota zeta.
    destruct (add_shape 12 left top width height); [tauto|split; discriminate].
Qed.

Lemma shape_type_map_collision_witness :
  (("octagon" : string) = "octagon" ∧ ("star" : string) = "star")
  ∨ (("octagon" : string) = "star" ∧ ("star" : string) = "octagon").
Proof.
  apply (proj1 (shape_type_map_collision (λ v _ _ _ _, OS.Ok v)) _ _ 12);
    [discriminate|reflexivity|reflexivity].
Defined.

End AddShapeDirect.

(* ===================================================================== *)
(** ** Template lookup and the other presentation handlers                *)
(* ===================================================================== *)

Section TemplateLookup.
Import OS Document.
Implicit Types (p : process) (w : world) (f : disk).

(** Opening a presentation only reads. *)
Lemma open_presentation_reads p path w :
  snd (PptUtils.open_presentation p path w) = w.
Proof.
  unfold PptUtils.open_presentation.
  by destruct (node_at (fs w) (PosixPath.key (cwd p) path)) as [[|[]]|].
Qed.

(** The search loop stops at the first candidate that exists and leaves
    the world alone. *)
Lemma search_template_find p template_name search_dirs w :
  PresentationTools.search_template p template_name search_dirs w
  = (Ok (List.find (path_exists p (fs w))
                   (List.map (λ d, PosixPath.join d template_name) search_dirs)), w).
Proof.
  induction search_dirs as [|d dirs IH]; [done|].
  cbn [PresentationTools.search_template List.map List.find]. run.
  unfold exists_ at 1. fold (path_exists p (fs w) (PosixPath.join d template_name)).
  by destruct (path_exists p (fs w) (PosixPath.join d template_name)).
Qed.

(** The search directories are always computed, and computing them
    leaves the disk alone. *)
Lemma template_search_directories_frame p w :
  ∃ dirs out, Server.get_template_search_directories p w = (Ok dirs, World (fs w) out).
Proof.
  unfold Server.get_template_search_directories. destruct w as [f out0].
  destruct (environ p !! "PPT_TEMPLATE_PATH") as [v|]; [|by eexists _, _].
  destruct (PyStr.truthy v); [|by eexists _, _].
  run. rewrite valid_env_dirs_filter.
  destruct (List.filter _ _) as [|d ds]; by eexists _, _.
Qed.

(** The lookup always returns, and leaves the disk alone. *)
Lemma locate_template_frame p template_path w :
  ∃ located out,
    PresentationTools.locate_template p template_path w
    = (Ok located, World (fs w) out).
Proof.
  unfold PresentationTools.locate_template. run.
  unfold exists_ at 1. fold (path_exists p (fs w) template_path).
  destruct (path_exists p (fs w) template_path); cbn [negb].
  - exists (inl template_path), (stdout w). by destruct w.
  - destruct (template_search_directories_frame p w) as (dirs & out & ->).
    rewrite search_template_find. by eexists _, _.
Qed.

(** X15: [create_presentation_from_template] with a library call that
    only reads.  When it returns, the response has exactly one of
    [message] and [error], and an error response means that no regular
    file was written or changed.  When an exception leaves it (resolution
    and saving are outside its [try]), no file was written either.  When
    the template is found nowhere, the response is the error naming the
    template and the directories searched, and the disk is exactly as it
    was: not even the target directory is created. *)
Theorem create_presentation_from_template_effects
        p (from_template : string → M Presentation) layout_count
        template_path presentation_file_name w :
  (∀ path w0, snd (from_template path w0) = w0) →
  let run := PresentationTools.create_presentation_from_template
               p from_template layout_count template_path presentation_file_name w in
  match fst run with
  | Ok response =>
      (is_message_response response = true ∨ is_error_response response = true)
      ∧ (is_error_response response = true → same_files (fs w) (fs (snd run)))
  | Raise e => same_files (fs w) (fs (snd run))
  end
  ∧ (∀ search_dirs,
       fst (PresentationTools.locate_template p template_path w)
       = Ok (inr search_dirs) →
       fst run = Ok (Tools.error_response
                       ("Template file not found: " +:+ template_path
                        +:+ ". Searched in " +:+ PyStr.join ", " search_dirs
                        +:+ PresentationTools.env_path_info p))
       ∧ fs (snd run) = fs w).
Proof.
  intros Hreads. cbv zeta.
  unfold PresentationTools.create_presentation_from_template.
  destruct (locate_template_frame p template_path w) as (located & out & Hloc).
  run. rewrite Hloc. cbn [fst].
  destruct located as [found|dirs].
  2:{ split; [|by intros ? [= <-]]. cbn [fst snd fs].
      split; [by right|]. intros _. apply same_files_refl. }
  split; [|by intros ? [=]].
  pose proof (Hreads found (World (fs w) out)) as Hlib.
  destruct (from_template found (World (fs w) out)) as [[pres|e] w0];
    cbn [snd] in Hlib; subst w0.
  2:{ cbn [fst snd fs]. split; [by right|]. intros _. apply same_files_refl. }
  pose proof (resolve_disk_grows
                p presentation_file_name (World (fs w) out)) as (Hfiles & _).
  cbn [fs] in Hfiles.
  destruct (Server.resolve_presentation_path p presentation_file_name
                                             (World (fs w) out))
    as [[path|e] w1]; cbn [snd] in Hfiles; [|exact Hfiles].
  unfold PptUtils.save_presentation.
  repeat next_case; cbn [fst snd fs] in *; simplify_eq;
    first [ exact Hfiles
          | split; [by left|by (intros Herr; vm_compute in Herr)] ].
Qed.

Lemma create_presentation_from_template_effects_witness :
  fst (PresentationTools.create_presentation_from_template
         Sample.alice (PptUtils.open_presentation Sample.alice)
         (λ _, 11) "corporate.pptx" "new/q3.pptx"
         (Sample.world_with Sample.one_slide))
  = Ok [("error",
         Py.PStr "Template file not found: corporate.pptx. Searched in ., ./templates, ./assets, ./resources")]
  ∧ fs (snd (PresentationTools.create_presentation_from_template
               Sample.alice (PptUtils.open_presentation Sample.alice)
               (λ _, 11) "corporate.pptx" "new/q3.pptx"
               (Sample.world_with Sample.one_slide)))
    = Sample.disk_with Sample.one_slide.
Proof.
  apply (proj2 (create_presentation_from_template_effects
                  Sample.alice (PptUtils.open_presentation Sample.alice)
                  (λ _, 11) "corporate.pptx" "new/q3.pptx"
                  (Sample.world_with Sample.one_slide)
                  (open_presentation_reads Sample.alice))
               [".";  "./templates"; "./assets"; "./resources"]).
  by_vm.
Defined.

End TemplateLookup.

(* ===================================================================== *)
(** ** Saving, and reading back what was saved                            *)
(* ===================================================================== *)

Section LifeCycle.
Import OS Document.
Implicit Types (p : process) (w : world) (f : disk).

(** Writing a regular file where no directory is does not disturb a
    descent that found all its directories. *)
Lemma makedirs_after_write p name w w1 k c out :
  makedirs p name w = (Ok tt, w1) →
  fs w1 !! k ≠ Some Dir →
  makedirs p name (World (<[k := File c]> (fs w1)) out)
  = (Ok tt, World (<[k := File c]> (fs w1)) out).
Proof.
  unfold makedirs.
  destruct (mkdir_p (os_refuses p) name [] (PosixPath.key (cwd p) name) (fs w))
    as [r f'] eqn:Hrun.
  intros [= -> <-] Hk. simpl in *.
  rewrite (mkdir_p_idem _ name _ [] (<[k := File c]> f')); [done|].
  intros pre Hpre Hpf.
  pose proof (mkdir_p_dirs _ _ _ _ _ _ _ Hrun Hpre Hpf) as [Hdir Hacc].
  split; [|done].
  rewrite lookup_insert_ne; [done|]. intros Heq. rewrite Heq in Hk. congruence.
Qed.

Lemma resolve_after_write p name w path w1 k c out :
  Server.resolve_presentation_path p name w = (Ok path, w1) →
  fs w1 !! k ≠ Some Dir →
  Server.resolve_presentation_path p name (World (<[k := File c]> (fs w1)) out)
  = (Ok path, World (<[k := File c]> (fs w1)) out).
Proof.
  unfold Server.resolve_presentation_path, Server.resolve_body. run.
  destruct (_ || _).
  - destruct (PyStr.truthy _).
    + destruct (makedirs p _ w) as [[[]|e] w'] eqn:Hmk; intros [= <- <-] Hk.
      by rewrite (makedirs_after_write _ _ _ _ _ _ _ Hmk Hk).
    + by intros [= <- <-].
  - destruct (makedirs p _ w) as [[[]|e] w'] eqn:Hmk; intros [= <- <-] Hk.
    by rewrite (makedirs_after_write _ _ _ _ _ _ _ Hmk Hk).
Qed.

(** What a successful save did. *)
Lemma save_presentation_inv p pres path w saved w' :
  PptUtils.save_presentation p pres path w = (Ok saved, w') →
  let k := PosixPath.key (cwd p) path in
  saved = path ∧ k ≠ [] ∧ fs w !! k ≠ Some Dir
  ∧ w' = World (<[k := File (Pptx pres)]> (fs w)) (stdout w).
Proof.
  unfold PptUtils.save_presentation. cbv zeta.
  destruct (PosixPath.key (cwd p) path) as [|c k] eqn:Hk.
  { cbn [node_at removelast]. by intros [=]. }
  destruct (node_at (fs w) (removelast (c :: k))) as [[|?]|];
    cbn [node_at]; destruct (fs w !! (c :: k)) as [[|?]|] eqn:Hat;
    intros [= <- <-]; by split_and!.
Qed.

(** What a successful save leaves behind can be opened. *)
Lemma open_after_save p pres path w k out :
  k = PosixPath.key (cwd p) path → k ≠ [] →
  PptUtils.open_presentation p path (World (<[k := File (Pptx pres)]> (fs w)) out)
  = (Ok pres, World (<[k := File (Pptx pres)]> (fs w)) out).
Proof.
  intros -> Hk. unfold PptUtils.open_presentation. cbn [fs].
  rewrite node_at_nonempty by done. by rewrite lookup_insert_eq.
Qed.

Lemma exists_after_save p path w k c out :
  k = PosixPath.key (cwd p) path → k ≠ [] →
  exists_ p path (World (<[k := File c]> (fs w)) out)
  = (Ok true, World (<[k := File c]> (fs w)) out).
Proof.
  intros -> Hk. unfold exists_. cbn [fs].
  rewrite node_at_nonempty by done. rewrite lookup_insert_eq.
  by rewrite bool_decide_eq_true_2 by eauto.
Qed.

(** X16: a presentation that [create_presentation] reported as created
    is opened by [open_presentation] under the same name: the same path
    is reported, the one slide of the new deck is counted, and opening
    changes nothing. *)
Theorem create_presentation_then_open p name w response w' :
  Tools.create_presentation p name w = (Ok response, w') →
  ∃ path,
    response = [("message", Py.PStr ("Created new presentation at: " +:+ path));
                ("file_path", Py.PStr path);
                ("slide_count", Py.PInt 1)]
    ∧ Tools.open_presentation p name w'
      = (Ok [("message", Py.PStr ("Opened presentation: " +:+ path));
             ("file_path", Py.PStr path);
             ("slide_count", Py.PInt 1)], w').
Proof.
  unfold Tools.create_presentation, Tools.open_presentation. run.
  destruct (Server.resolve_presentation_path p name w) as [[path|e] w1] eqn:Hres;
    [|by intros [=]].
  destruct (PptUtils.save_presentation p PptUtils.create_presentation path w1)
    as [[saved|e] w2] eqn:Hsave; [|by intros [=]].
  apply save_presentation_inv in Hsave as (-> & Hk & Hnodir & ->).
  intros [= <- <-]. exists path. split; [done|].
  rewrite (resolve_after_write _ _ _ _ _ _ _ _ Hres Hnodir).
  rewrite exists_after_save by done. cbn [negb].
  by rewrite open_after_save by done.
Qed.

Lemma create_presentation_then_open_witness :
  ∃ w',
    fst (Tools.create_presentation Sample.alice "drafts/q3.pptx" (World ∅ []))
    = Ok [("message",
           Py.PStr "Created new presentation at: /home/alice/drafts/q3.pptx");
          ("file_path", Py.PStr "/home/alice/drafts/q3.pptx");
          ("slide_count", Py.PInt 1)]
    ∧ Tools.open_presentation Sample.alice "drafts/q3.pptx" w'
      = (Ok [("message",
              Py.PStr "Opened presentation: /home/alice/drafts/q3.pptx");
             ("file_path", Py.PStr "/home/alice/drafts/q3.pptx");
             ("slide_count", Py.PInt 1)], w').
Proof.
  exists (snd (Tools.create_presentation Sample.alice "drafts/q3.pptx" (World ∅ []))).
  split; [by_vm|].
  destruct (create_presentation_then_open
              Sample.alice "drafts/q3.pptx" (World ∅ [])
              [("message",
                Py.PStr "Created new presentation at: /home/alice/drafts/q3.pptx");
               ("file_path", Py.PStr "/home/alice/drafts/q3.pptx");
               ("slide_count", Py.PInt 1)]
              (snd (Tools.create_presentation Sample.alice "drafts/q3.pptx"
                                              (World ∅ []))))
    as (path & Hresponse & Hopen); [by_vm|].
  injection Hresponse as _ Hpath. rewrite <- Hpath in Hopen. exact Hopen.
Defined.

(** X17: [save_presentation] with a destination.  The destination is
    made absolute against the working directory, not resolved under the
    presentations root, and no directory is created for it.  When the
    source is a presentation, the destination's parent is a directory
    and the destination is not one, the document is written there: the
    response names the destination, the destination then opens to the
    document of the source, and no other regular file differs from what
    there was after the source was resolved. *)
Theorem save_presentation_copy p name file_path w src w1 pres :
  Server.resolve_presentation_path p name w = (Ok src, w1) →
  node_at (fs w1) (PosixPath.key (cwd p) src) = Some (File (Pptx pres)) →
  PyStr.truthy file_path = true →
  let dest := PosixPath.abspath (cwd p) file_path in
  let k := PosixPath.key (cwd p) dest in
  is_dir (fs w1) (removelast k) = true →
  is_dir (fs w1) k = false →
  let run := PresentationTools.save_presentation p name (Some file_path) w in
  fst run = Ok [("message", Py.PStr ("Presentation saved to " +:+ dest));
                ("file_path", Py.PStr dest)]
  ∧ fst (PptUtils.open_presentation p dest (snd run)) = Ok pres
  ∧ same_files_except k (fs w1) (fs (snd run))
  ∧ (k ≠ PosixPath.key (cwd p) src →
     fst (PptUtils.open_presentation p src (snd run)) = Ok pres).
Proof.
  intros Hres Hfile Htruthy dest k Hparent Hdest.
  unfold is_dir in Hparent, Hdest.
  assert (Hk : k ≠ []) by (intros Heq; by rewrite Heq in Hdest).
  assert (Hsrc : PosixPath.key (cwd p) src ≠ [])
    by (intros Heq; by rewrite Heq in Hfile).
  assert (Hrun : PresentationTools.save_presentation p name (Some file_path) w
                 = (Ok [("message", Py.PStr ("Presentation saved to " +:+ dest));
                        ("file_path", Py.PStr dest)],
                    World (<[k := File (Pptx pres)]> (fs w1)) (stdout w1))).
  { unfold PresentationTools.save_presentation. run.
    rewrite Hres. unfold exists_ at 1.
    rewrite Hfile, bool_decide_eq_true_2 by eauto. cbn [negb].
    unfold PptUtils.open_presentation at 1. rewrite Hfile.
    cbn [Py.opt_str_truthy default from_option id]. rewrite Htruthy.
    fold dest. unfold PptUtils.save_presentation. fold k.
    destruct (node_at (fs w1) (removelast k)) as [[|?]|]; try done.
    by destruct (node_at (fs w1) k) as [[|?]|]. }
  cbv zeta. rewrite Hrun. cbn [fst snd fs]. split_and!.
  - done.
  - by rewrite open_after_save.
  - intros k0 c0 Hne. by rewrite lookup_insert_ne.
  - intros Hne. unfold PptUtils.open_presentation. cbn [fs].
    rewrite node_at_nonempty in * by done.
    rewrite lookup_insert_ne by done. by rewrite Hfile.
Qed.

Lemma save_presentation_copy_witness :
  fst (PresentationTools.save_presentation
         Sample.alice "deck.pptx" (Some "copy.pptx")
         (Sample.world_with Sample.one_slide))
  = Ok [("message", Py.PStr "Presentation saved to /home/alice/copy.pptx");
        ("file_path", Py.PStr "/home/alice/copy.pptx")]
  ∧ fst (PptUtils.open_presentation
           Sample.alice "/home/alice/copy.pptx"
           (snd (PresentationTools.save_presentation
                   Sample.alice "deck.pptx" (Some "copy.pptx")
                   (Sample.world_with Sample.one_slide))))
    = Ok Sample.one_slide.
Proof.
  pose proof (save_presentation_copy
                Sample.alice "deck.pptx" "copy.pptx"
                (Sample.world_with Sample.one_slide)
                "/home/alice/presentations/deck.pptx"
                (Sample.world_with Sample.one_slide)
                Sample.one_slide) as H.
  destruct H as (Hresponse & Hopen & _); [by_vm|by_vm|by_vm|by_vm|by_vm|].
  split; [exact Hresponse|exact Hopen].
Defined.

End LifeCycle.

(* ===================================================================== *)
(** ** Hyperlinks: what is listed, and that what was added is listed      *)
(* ===================================================================== *)

Section Hyperlinks.
Import OS Document.
Implicit Types (p : process) (w : world) (pres : Presentation).

Lemma in_concat_imap {A B} (f : nat → A → list B) (l : list A) (x : B) :
  In x (concat (imap f l)) ↔ ∃ i a, l !! i = Some a ∧ In x (f i a).
Proof.
  rewrite in_concat. split.
  - intros (ys & Hys & Hx). apply list_elem_of_In in Hys.
    apply elem_of_lookup_imap in Hys as (i & a & -> & Hl). eauto.
  - intros (i & a & Hl & Hx). exists (f i a). split; [|done].
    apply list_elem_of_In, elem_of_lookup_imap. eauto.
Qed.

(** Every entry listed comes from a run with a non-empty address. *)
Lemma list_hyperlinks_sound (slide : Slide) (v : Py.value) :
  In v (Tools.list_hyperlinks slide) →
  ∃ shape_idx para_idx run_idx run,
    run_at slide shape_idx para_idx run_idx = Some run
    ∧ Py.opt_str_truthy (hyperlink_address run) = true
    ∧ v = hyperlink_entry shape_idx para_idx run_idx run.
Proof.
  unfold Tools.list_hyperlinks, run_at. rewrite in_concat_imap.
  intros (si & shape & Hshape & Hin).
  destruct (text_frame shape) as [tf|] eqn:Htf; [|done].
  apply in_concat_imap in Hin as (pi & par & Hpar & Hin).
  apply in_concat_imap in Hin as (ri & run & Hrun & Hin).
  destruct (Py.opt_str_truthy (hyperlink_address run)) eqn:Hlink; [|done].
  destruct Hin as [<-|[]]. exists si, pi, ri, run.
  rewrite Hshape. cbn [mbind option_bind]. rewrite Htf.
  cbn [mbind option_bind]. by rewrite Hpar.
Qed.

(** Every run with a non-empty address is listed at its position. *)
Lemma list_hyperlinks_complete (slide : Slide) shape_idx para_idx run_idx run :
  run_at slide shape_idx para_idx run_idx = Some run →
  Py.opt_str_truthy (hyperlink_address run) = true →
  In (hyperlink_entry shape_idx para_idx run_idx run) (Tools.list_hyperlinks slide).
Proof.
  unfold Tools.list_hyperlinks, run_at. intros Hat Hlink.
  destruct (shapes slide !! shape_idx) as [shape|] eqn:Hshape; [|done].
  cbn [mbind option_bind] in Hat.
  destruct (text_frame shape) as [tf|] eqn:Htf; [|done].
  cbn [mbind option_bind] in Hat.
  destruct (paragraphs tf !! para_idx) as [par|] eqn:Hpar; [|done].
  cbn [mbind option_bind] in Hat.
  apply in_concat_imap. exists shape_idx, shape. split; [done|]. rewrite Htf.
  apply in_concat_imap. exists para_idx, par. split; [done|].
  apply in_concat_imap. exists run_idx, run. split; [done|].
  rewrite Hlink. by left.
Qed.

(** X18: the [list] operation reports exactly the runs whose hyperlink
    address is a non-empty string, each with its shape, paragraph and
    run position, its text and its address. *)
Theorem list_hyperlinks_exact (slide : Slide) (v : Py.value) :
  In v (Tools.list_hyperlinks slide)
  ↔ ∃ shape_idx para_idx run_idx run,
      run_at slide shape_idx para_idx run_idx = Some run
      ∧ Py.opt_str_truthy (hyperlink_address run) = true
      ∧ v = hyperlink_entry shape_idx para_idx run_idx run.
Proof.
  split.
  - apply list_hyperlinks_sound.
  - intros (si & pi & ri & run & Hat & Hlink & ->).
    by apply list_hyperlinks_complete.
Qed.

(** Appending a run to the first paragraph of a shape moves no run. *)
Lemma run_at_add_run slide shi shape tf par pars text url si pi ri run :
  shapes slide !! shi = Some shape →
  text_frame shape = Some tf → paragraphs tf = par :: pars →
  run_at slide si pi ri = Some run →
  run_at {| shapes := alter (Tools.alter_paragraph (Tools.add_run text url) 0) shi
                            (shapes slide);
            transition := transition slide |} si pi ri = Some run.
Proof.
  intros Hshape Htf Hpars. unfold run_at. cbn [shapes].
  destruct (decide (si = shi)) as [->|Hne].
  - rewrite list_lookup_alter_eq, Hshape. simpl. rewrite Htf. simpl. rewrite Hpars.
    destruct pi as [|pi]; [|done]. simpl. intros Hrun.
    by apply lookup_app_l_Some.
  - by rewrite list_lookup_alter_ne.
Qed.

(** The appended run is the last one of the first paragraph. *)
Lemma run_at_added slide shi shape tf par pars text url :
  shapes slide !! shi = Some shape →
  text_frame shape = Some tf → paragraphs tf = par :: pars →
  run_at {| shapes := alter (Tools.alter_paragraph (Tools.add_run text url) 0) shi
                            (shapes slide);
            transition := transition slide |} shi 0 (length (runs par))
  = Some {| run_text := text; hyperlink_address := Some url |}.
Proof.
  intros Hshape Htf Hpars. unfold run_at. cbn [shapes].
  rewrite list_lookup_alter_eq, Hshape. simpl. rewrite Htf. simpl. rewrite Hpars.
  simpl. by rewrite list_lookup_middle.
Qed.

(** X19: adding and then listing.  On a well-formed disk, for an
    existing presentation, a slide and a shape in range, a shape with
    text and at least one paragraph, and non-empty text and address, the
    [add] operation answers with its message and saves; a [list] on the
    same slide afterwards, whatever its other arguments, reports the new
    run as the last one of the shape's first paragraph, with the text
    and the address given, next to everything that was listed before,
    and changes nothing. *)
Theorem manage_hyperlinks_add_then_list
        p name w path w1 pres slide_index slide shape_index shape tf par pars
        text url run_index :
  wf_fs (fs w) →
  existing_presentation p name w path w1 pres →
  0 ≤ slide_index → slides pres !! Z.to_nat slide_index = Some slide →
  0 ≤ shape_index → shapes slide !! Z.to_nat shape_index = Some shape →
  text_frame shape = Some tf → paragraphs tf = par :: pars →
  PyStr.truthy text = true → PyStr.truthy url = true →
  ∃ w2 hyperlinks,
    Tools.manage_hyperlinks p "add" slide_index (Some shape_index)
                            (Some text) (Some url) run_index (Some name) w
    = (Ok [("message",
            Py.PStr ("Added hyperlink '" +:+ text +:+ "' -> '" +:+ url
                     +:+ "' to shape " +:+ PyStr.of_Z shape_index));
           ("text", Py.PStr text);
           ("url", Py.PStr url);
           ("file_path", Py.PStr path)], w2)
    ∧ (∀ shape_index' text' url' run_index',
         Tools.manage_hyperlinks p "list" slide_index shape_index' text' url'
                                 run_index' (Some name) w2
         = (Ok [("message",
                 Py.PStr ("Found " +:+ PyStr.of_Z (Py.len hyperlinks)
                          +:+ " hyperlinks on slide " +:+ PyStr.of_Z slide_index));
                ("hyperlinks", Py.PList hyperlinks);
                ("file_path", Py.PStr path)], w2))
    ∧ In (hyperlink_entry (Z.to_nat shape_index) 0 (length (runs par))
                          {| run_text := text; hyperlink_address := Some url |})
         hyperlinks
    ∧ (∀ v, In v (Tools.list_hyperlinks slide) → In v hyperlinks).
Proof.
  intros Hwf H Hi Hslide Hj Hshape Htf Hpars Htext Hurl.
  set (slide' := {| shapes := alter (Tools.alter_paragraph (Tools.add_run text url) 0)
                                    (Z.to_nat shape_index) (shapes slide);
                    transition := transition slide |}).
  set (pres' := Tools.alter_shape (Tools.alter_paragraph (Tools.add_run text url) 0)
                                  (Z.to_nat slide_index) (Z.to_nat shape_index) pres).
  set (k := PosixPath.key (cwd p) path).
  exists (World (<[k := File (Pptx pres')]> (fs w1)) (stdout w1)),
         (Tools.list_hyperlinks slide').
  assert (Hk : k ≠ [] ∧ fs w1 !! k = Some (File (Pptx pres))).
  { destruct H as (_ & _ & Hfile). fold k in Hfile.
    destruct k; [done|]. by split. }
  destruct Hk as [Hk Hat].
  assert (Hwf1 : wf_fs (fs w1)).
  { destruct H as (_ & Hres & _).
    pose proof (resolve_disk_grows p name w) as (_ & _ & _ & Hwf1).
    rewrite Hres in Hwf1. by apply Hwf1. }
  assert (Hslide' : slides pres' !! Z.to_nat slide_index = Some slide').
  { unfold pres', Tools.alter_shape, Tools.alter_slide. cbn [slides].
    by rewrite list_lookup_alter_eq, Hslide. }
  assert (H' : existing_presentation
                 p name (World (<[k := File (Pptx pres')]> (fs w1)) (stdout w1))
                 path (World (<[k := File (Pptx pres')]> (fs w1)) (stdout w1)) pres').
  { destruct H as (Hname & Hres & Hfile). split_and!; [done| |].
    - by apply (resolve_after_save p name w path w1 k (Pptx pres)).
    - cbn [fs]. fold k. rewrite node_at_nonempty by done.
      by rewrite lookup_insert_eq. }
  split_and!.
  - unfold Tools.manage_hyperlinks, Tools.manage_hyperlinks_body.
    prologue H.
    assert (Tools.in_range slide_index (slides pres) = true) as ->
      by (apply in_range_lookup; eauto).
    cbn [negb]. rewrite (subscript_in_range _ _ slide) by done.
    change (String.eqb "add" "list") with false.
    change (String.eqb "add" "add") with true.
    assert (Tools.in_range shape_index (shapes slide) = true) as Hin
      by (apply in_range_lookup; eauto).
    cbn beta iota zeta. rewrite Hin. cbn [negb default from_option id].
    rewrite (subscript_in_range _ _ shape) by done.
    rewrite Htf, Hpars, Htext, Hurl. cbn [negb orb].
    rewrite (subscript_in_range 0 (par :: pars) par) by done.
    unfold PptUtils.save_presentation. fold k.
    pose proof (Hwf1 _ _ Hat) as Hparent. unfold is_dir in Hparent.
    cbn beta in Hparent.
    destruct (node_at (fs w1) (removelast k)) as [[|c]|]; try done.
    rewrite node_at_nonempty by done. by rewrite Hat.
  - intros shape_index' text' url' run_index'.
    unfold Tools.manage_hyperlinks, Tools.manage_hyperlinks_body.
    prologue H'.
    assert (Tools.in_range slide_index (slides pres') = true) as ->
      by (apply in_range_lookup; eauto).
    cbn [negb]. rewrite (subscript_in_range _ _ slide') by done.
    by change (String.eqb "list" "list") with true.
  - apply list_hyperlinks_complete; [|done]. by eapply run_at_added.
  - intros v Hv.
    apply list_hyperlinks_sound in Hv as (si & pi & ri & run & Hrun & Hlink & ->).
    apply list_hyperlinks_complete; [|done]. by eapply run_at_add_run.
Qed.

Lemma manage_hyperlinks_add_then_list_witness :
  ∃ w2 hyperlinks,
    Tools.manage_hyperlinks Sample.alice "add" 0 (Some 0) (Some "docs")
                            (Some "https://example.org") 0 (Some "deck.pptx")
                            (Sample.world_with Sample.one_slide)
    = (Ok [("message",
            Py.PStr ("Added hyperlink '" +:+ "docs" +:+ "' -> '"
                     +:+ "https://example.org"
                     +:+ "' to shape " +:+ PyStr.of_Z 0));
           ("text", Py.PStr "docs");
           ("url", Py.PStr "https://example.org");
           ("file_path", Py.PStr "/home/alice/presentations/deck.pptx")], w2)
    ∧ (∀ shape_index' text' url' run_index',
         Tools.manage_hyperlinks Sample.alice "list" 0 shape_index' text' url'
                                 run_index' (Some "deck.pptx") w2
         = (Ok [("message",
                 Py.PStr ("Found " +:+ PyStr.of_Z (Py.len hyperlinks)
                          +:+ " hyperlinks on slide " +:+ PyStr.of_Z 0));
                ("hyperlinks", Py.PList hyperlinks);
                ("file_path", Py.PStr "/home/alice/presentations/deck.pptx")], w2))
    ∧ In (hyperlink_entry (Z.to_nat 0) 0 (length [Sample.linked_run])
                          {| run_text := "docs";
                             hyperlink_address := Some "https://example.org" |})
         hyperlinks
    ∧ (∀ v, In v (Tools.list_hyperlinks
                    {| shapes := [Sample.text_shape; Sample.chart_shape];
                       transition := Some "fade" |}) → In v hyperlinks).
Proof.
  apply (manage_hyperlinks_add_then_list
           Sample.alice "deck.pptx" (Sample.world_with Sample.one_slide)
           "/home/alice/presentations/deck.pptx"
           (Sample.world_with Sample.one_slide) Sample.one_slide
           0 {| shapes := [Sample.text_shape; Sample.chart_shape];
                transition := Some "fade" |}
           0 Sample.text_shape
           {| paragraphs := [ {| runs := [Sample.linked_run] |} ] |}
           {| runs := [Sample.linked_run] |} []
           "docs" "https://example.org" 0).
  - apply wf_disk_with.
  - apply existing_deck.
  - lia.
  - reflexivity.
  - lia.
  - reflexivity.
  - reflexivity.
  - reflexivity.
  - reflexivity.
  - reflexivity.
Defined.

End Hyperlinks.

(* ===================================================================== *)
(** ** The reading handlers of [tools/presentation_tools.py]              *)
(* ===================================================================== *)

Section ReadingHandlers.
Import OS Document.
Implicit Types (p : process) (w : world) (pres : Presentation).

Lemma get_dict_set_eq k v d : Py.get k (PresentationTools.dict_set k v d) = Some v.
Proof.
  induction d as [|[k' v'] d IH]; cbn [PresentationTools.dict_set Py.get].
  - by rewrite String.eqb_refl.
  - destruct (String.eqb k' k) eqn:Hk; cbn [Py.get]; by rewrite Hk.
Qed.

Lemma get_dict_set_ne k k0 v d :
  k0 ≠ k → Py.get k0 (PresentationTools.dict_set k v d) = Py.get k0 d.
Proof.
  intros Hne.
  assert (String.eqb k k0 = false) as Hkk by (apply String.eqb_neq; congruence).
  induction d as [|[k' v'] d IH]; cbn [PresentationTools.dict_set Py.get].
  - by rewrite Hkk.
  - destruct (String.eqb k' k) eqn:Hk; cbn [Py.get]; [|by rewrite IH].
    apply String.eqb_eq in Hk as ->. by rewrite Hkk.
Qed.

(** X22: [get_presentation_info] on an existing presentation for which
    the library returns its information.  The answer is that
    information with [file_path] set to the resolved path, whatever the
    library had put there; every other key is as the library gave it. *)
Theorem get_presentation_info_file_path
        p (info_of : Presentation → M Py.dict) name w path w1 pres info w2 :
  Server.resolve_presentation_path p name w = (Ok path, w1) →
  node_at (fs w1) (PosixPath.key (cwd p) path) = Some (File (Pptx pres)) →
  info_of pres w1 = (Ok info, w2) →
  ∃ response,
    PresentationTools.get_presentation_info p info_of name w = (Ok response, w2)
    ∧ Py.get "file_path" response = Some (Py.PStr path)
    ∧ (∀ k, k ≠ "file_path" → Py.get k response = Py.get k info).
Proof.
  intros Hres Hfile Hinfo.
  exists (PresentationTools.dict_set "file_path" (Py.PStr path) info). split_and!.
  - unfold PresentationTools.get_presentation_info. run.
    rewrite Hres. unfold exists_, PptUtils.open_presentation.
    rewrite Hfile, bool_decide_eq_true_2 by eauto. cbn beta iota. cbn [negb].
    rewrite Hfile. cbn beta iota. by rewrite Hinfo.
  - apply get_dict_set_eq.
  - intros k Hne. by apply get_dict_set_ne.
Qed.

Lemma get_presentation_info_file_path_witness :
  ∃ response,
    PresentationTools.get_presentation_info
      Sample.alice
      (λ pres, mret [("file_path", Py.PNone);
                     ("slide_count", Py.PInt (Py.len (slides pres)))])
      "deck.pptx" (Sample.world_with Sample.one_slide)
    = (Ok response, Sample.world_with Sample.one_slide)
    ∧ Py.get "file_path" response
      = Some (Py.PStr "/home/alice/presentations/deck.pptx")
    ∧ Py.get "slide_count" response = Some (Py.PInt 1).
Proof.
  destruct (get_presentation_info_file_path
              Sample.alice
              (λ pres, mret [("file_path", Py.PNone);
                             ("slide_count", Py.PInt (Py.len (slides pres)))])
              "deck.pptx" (Sample.world_with Sample.one_slide)
              "/home/alice/presentations/deck.pptx"
              (Sample.world_with Sample.one_slide) Sample.one_slide
              [("file_path", Py.PNone); ("slide_count", Py.PInt 1)]
              (Sample.world_with Sample.one_slide))
    as (response & Hrun & Hpath & Hrest); [by_vm|by_vm|reflexivity|].
  exists response. split_and!; [exact Hrun|exact Hpath|].
  by rewrite Hrest.
Defined.

(** X23: [get_template_file_info] with a library call that leaves the
    disk alone.  The call never raises and the disk is afterwards exactly
    as it was.  When the template is found nowhere, the answer is the
    error that names the template and the directories searched; unlike
    [create_presentation_from_template] it does not mention
    [PPT_TEMPLATE_PATH]. *)
Theorem get_template_file_info_effects
        p (get_template_info : string → M Py.dict) template_path w :
  (∀ path w0, fs (snd (get_template_info path w0)) = fs w0) →
  let run := PresentationTools.get_template_file_info
               p get_template_info template_path w in
  (∃ response, fst run = Ok response)
  ∧ fs (snd run) = fs w
  ∧ (∀ search_dirs,
       fst (PresentationTools.locate_template p template_path w)
       = Ok (inr search_dirs) →
       fst run = Ok (Tools.error_response
                       ("Template file not found: " +:+ template_path
                        +:+ ". Searched in " +:+ PyStr.join ", " search_dirs))).
Proof.
  intros Hreads. cbv zeta.
  unfold PresentationTools.get_template_file_info.
  destruct (locate_template_frame p template_path w) as (located & out & Hloc).
  run. rewrite Hloc. cbn [fst].
  destruct located as [found|dirs].
  2:{ split_and!; [by eexists|done|by intros ? [= <-]]. }
  pose proof (Hreads found (World (fs w) out)) as Hlib.
  destruct (get_template_info found (World (fs w) out)) as [[info|e] w0];
    cbn [fst snd fs] in *; (split_and!; [by eexists|done|by intros ? [=]]).
Qed.

Lemma get_template_file_info_effects_witness :
  fst (PresentationTools.get_template_file_info
         (Sample.alice_with_template_path "/srv/templates")
         (λ path, OS.ret [("template_path", Py.PStr path)])
         "corporate.pptx" (Sample.world_with Sample.one_slide))
  = Ok [("error",
         Py.PStr "Template file not found: corporate.pptx. Searched in ., ./templates, ./assets, ./resources")].
Proof.
  apply (proj2 (proj2 (get_template_file_info_effects
                         (Sample.alice_with_template_path "/srv/templates")
                         (λ path, OS.ret [("template_path", Py.PStr path)])
                         "corporate.pptx" (Sample.world_with Sample.one_slide)
                         (λ path w0, eq_refl)))
               ["."; "./templates"; "./assets"; "./resources"]).
  by_vm.
Defined.

(** X24: [save_presentation] without a destination ([None] or the empty
    string) on an existing presentation on a well-formed disk writes the
    document back where it was read: the answer names the resolved path
    and the world is as resolution left it. *)
Theorem save_presentation_in_place p name file_path w path w1 pres :
  wf_fs (fs w) →
  Server.resolve_presentation_path p name w = (Ok path, w1) →
  node_at (fs w1) (PosixPath.key (cwd p) path) = Some (File (Pptx pres)) →
  Py.opt_str_truthy file_path = false →
  PresentationTools.save_presentation p name file_path w
  = (Ok [("message", Py.PStr ("Presentation saved to " +:+ path));
         ("file_path", Py.PStr path)], w1).
Proof.
  intros Hwf Hres Hfile Hnone.
  pose proof (resolve_disk_grows p name w) as (_ & _ & _ & Hwf1).
  rewrite Hres in Hwf1. cbn [snd] in Hwf1. specialize (Hwf1 Hwf).
  unfold PresentationTools.save_presentation. run.
  rewrite Hres. unfold exists_, PptUtils.open_presentation.
  rewrite Hfile, bool_decide_eq_true_2 by eauto. cbn beta iota. cbn [negb].
  rewrite Hfile. cbn beta iota.
  rewrite Hnone. by rewrite (save_presentation_same p path w1 pres).
Qed.

Lemma save_presentation_in_place_witness :
  PresentationTools.save_presentation
    Sample.alice "deck.pptx" (Some "") (Sample.world_with Sample.one_slide)
  = (Ok [("message",
          Py.PStr ("Presentation saved to " +:+ "/home/alice/presentations/deck.pptx"));
         ("file_path", Py.PStr "/home/alice/presentations/deck.pptx")],
     Sample.world_with Sample.one_slide).
Proof.
  apply (save_presentation_in_place
           Sample.alice "deck.pptx" (Some "") (Sample.world_with Sample.one_slide)
           "/home/alice/presentations/deck.pptx"
           (Sample.world_with Sample.one_slide) Sample.one_slide).
  - apply wf_disk_with.
  - by_vm.
  - by_vm.
  - reflexivity.
Defined.

End ReadingHandlers.

(* ===================================================================== *)
(** ** What the handlers outside a [try] leave behind                     *)
(* ===================================================================== *)

Section OutsideTry.
Import OS Document.
Implicit Types (p : process) (w : world).

(** X25: the three handlers of [presentation_tools.py] that are not
    wholly inside a [try].  [open_presentation] writes and changes no
    regular file however it ends; when it returns, its answer has
    exactly one of [message] and [error], and an exception that leaves
    it is the resolver's.  [create_presentation] answers with a message
    whenever it returns, and when an exception leaves it no regular file
    was written.  [set_core_properties] answers with exactly one of
    [message] and [error] when it returns, an error answer means that no
    regular file was written or changed, and so does an exception that
    leaves it. *)
Theorem presentation_handlers_effects
        p name title subject author keywords comments opt_name w :
  (let run := Tools.open_presentation p name w in
   same_files (fs w) (fs (snd run))
   ∧ match fst run with
     | Ok response =>
         is_message_response response = true ∨ is_error_response response = true
     | Raise e => fst (Server.resolve_presentation_path p name w) = Raise e
     end)
  ∧ (let run := Tools.create_presentation p name w in
     match fst run with
     | Ok response => is_message_response response = true
     | Raise e => same_files (fs w) (fs (snd run))
     end)
  ∧ (let run := Tools.set_core_properties p title subject author keywords
                                          comments opt_name w in
     match fst run with
     | Ok response =>
         (is_message_response response = true ∨ is_error_response response = true)
         ∧ (is_error_response response = true → same_files (fs w) (fs (snd run)))
     | Raise e => same_files (fs w) (fs (snd run))
     end).
Proof.
  cbv zeta. split; [|split].
  - unfold Tools.open_presentation, exists_, PptUtils.open_presentation. run.
    pose proof (resolve_disk_grows p name w) as (Hfiles & _).
    destruct (Server.resolve_presentation_path p name w) as [[path|e] w1];
      cbn [snd] in Hfiles; [|done].
    repeat next_case; cbn [fst snd fs] in *; simplify_eq;
      (split; [exact Hfiles|]); first [by left|by right].
  - unfold Tools.create_presentation, PptUtils.save_presentation. run.
    pose proof (resolve_disk_grows p name w) as (Hfiles & _).
    destruct (Server.resolve_presentation_path p name w) as [[path|e] w1];
      cbn [snd] in Hfiles; [|done].
    repeat next_case; cbn [fst snd fs] in *; simplify_eq;
      first [reflexivity|exact Hfiles].
  - unfold Tools.set_core_properties, exists_, PptUtils.open_presentation,
           PptUtils.save_presentation. run.
    destruct opt_name as [name'|];
      cbn [default from_option id Py.opt_str_truthy negb];
      [|split; [by right|intros _; apply same_files_refl]].
    destruct (PyStr.truthy name'); cbn [negb];
      [|split; [by right|intros _; apply same_files_refl]].
    pose proof (resolve_disk_grows p name' w) as (Hfiles & _).
    destruct (Server.resolve_presentation_path p name' w) as [[path|e] w1];
      cbn [snd] in Hfiles; [|done].
    repeat next_case; cbn [fst snd fs] in *; simplify_eq;
      first [ exact Hfiles
            | split; [by right|intros _; exact Hfiles]
            | split; [by left|by (intros Herr; vm_compute in Herr)] ].
Qed.

End OutsideTry.
